(** * Yachani: the document registry, the category store and agent resolution

    A shallow embedding of [utils/document_manager.py] (class
    [DocumentManager]) and of [load_agent_config] from
    [pages/2_🤖_agents.py], followed by the properties of the specification
    that concern them.

    Conventions of the embedding.
    - A Python [str] is a Rocq [string] holding the UTF-8 bytes of the text,
      so [.encode()] is the identity on the bytes and the literals of the
      source are written as they are.
    - A Python [dict] is an association list in insertion order
      (module [Dict]); assignment to an existing key keeps its position.
    - Values read from JSON are of type [pyval]: [None], integers, strings
      and lists.  JSON booleans, fractional numbers and nested objects do not
      occur in the records this program writes and are left out.  Integers
      are those that [json.load] can read and [str] can render: of at most
      [sys.int_info.default_max_str_digits] digits.
    - [str.lower], [repr] and [int] are computed for ASCII text; on other
      text they are what the interpreter's Unicode database makes them,
      class [Unicode], and the properties hold for every such database.
    - An exception is a value of [exn]; code that can raise returns a
      [result], and code that also mutates the manager or the disk is in the
      monad [M].
    - The file system, the clock and the external vector store are explicit:
      module [World]. *)

From Stdlib Require Import ZArith List String Ascii Bool Lia.
From Stdlib Require Import Permutation Sorted DecimalString DecimalZ QArith.
Import ListNotations.

Local Open Scope string_scope.
Local Open Scope list_scope.
Local Open Scope Z_scope.

(** String concatenation, kept apart from [++] on lists. *)
Infix "+++" := String.append (at level 60, right associativity).

(* ===================================================================== *)
(** * Python built-ins used by the source                                  *)
(* ===================================================================== *)

Module Py.

(** ** Exceptions and results *)

Inductive exn : Type :=
| KeyError (key : string)
| TypeError
| ValueError
| OSError
| JSONDecodeError
(** [Exception(f"Error adding document: {str(e)}")] *)
| Error_adding_document (cause : exn).

Inductive result (A : Type) : Type :=
| Ok (a : A)
| Raise (e : exn).
Arguments Ok {A} a.
Arguments Raise {A} e.

Definition bind {A B} (r : result A) (k : A -> result B) : result B :=
  match r with
  | Ok a => k a
  | Raise e => Raise e
  end.

Definition is_ok {A} (r : result A) : bool :=
  match r with Ok _ => true | Raise _ => false end.

(** [[f(x) for x in l if p(x)]] where [p] may raise: elements are visited in
    order and the first exception ends the comprehension. *)
Fixpoint filterM {A} (p : A -> result bool) (l : list A) : result (list A) :=
  match l with
  | [] => Ok []
  | x :: l' =>
      bind (p x) (fun b =>
      bind (filterM p l') (fun r =>
      Ok (if b then x :: r else r)))
  end.

(** ** Strings *)

Definition code (c : ascii) : Z := Z.of_N (N_of_ascii c).
Definition chr (n : Z) : ascii := ascii_of_N (Z.to_N n).

Fixpoint bytes (s : string) : list Z :=
  match s with
  | EmptyString => []
  | String c s' => code c :: bytes s'
  end.

(** [s.encode()]: the text is held as UTF-8 already. *)
Definition encode (s : string) : list Z := bytes s.

Definition is_upper (c : ascii) : bool := (65 <=? code c) && (code c <=? 90).

(** The text has ASCII characters only. *)
Fixpoint is_ascii (s : string) : bool :=
  match s with
  | EmptyString => true
  | String c s' => (code c <? 128) && is_ascii s'
  end.

(** ** What the interpreter's Unicode tables decide

    [str.lower], [repr] and [int] are computed here for ASCII text.  On a
    text with a character outside ASCII they follow the Unicode character
    database of the interpreter (the case mappings, which characters are
    printable, the decimal digits and the spaces of every script).  That
    database is not part of this development: what the three built-ins
    answer on such a text is taken as it comes, as the members of
    [Unicode], and every property below holds whatever they are. *)
Class Unicode : Type := {
  (** [s.lower()] *)
  unicode_lower : string -> string;
  (** [repr(s)] *)
  unicode_repr : string -> string;
  (** [int(s)] *)
  unicode_int : string -> result Z
}.

(** [s.lower()] for ASCII text: [A-Z] go to [a-z]. *)
Fixpoint ascii_lower (s : string) : string :=
  match s with
  | EmptyString => EmptyString
  | String c s' =>
      String (if is_upper c then chr (code c + 32) else c) (ascii_lower s')
  end.

(** [s.lower()] *)
Definition lower `{U : Unicode} (s : string) : string :=
  if is_ascii s then ascii_lower s else unicode_lower s.

Fixpoint startswith (s p : string) : bool :=
  match p, s with
  | EmptyString, _ => true
  | String a p', String b s' => Ascii.eqb a b && startswith s' p'
  | String _ _, EmptyString => false
  end.

(** [q in s] for strings: [q] occurs in [s] as a contiguous substring. *)
Fixpoint contains (q s : string) : bool :=
  startswith s q ||
  match s with
  | EmptyString => false
  | String _ s' => contains q s'
  end.

Definition is_continuation (c : ascii) : bool :=
  (128 <=? code c) && (code c <=? 191).

(** Iterating over a [str] yields its characters: a UTF-8 lead byte with
    the continuation bytes that follow it. *)
Fixpoint chars_from (cur : string) (s : string) : list string :=
  match s with
  | EmptyString => [cur]
  | String c s' =>
      if is_continuation c then chars_from (cur +++ String c EmptyString) s'
      else cur :: chars_from (String c EmptyString) s'
  end.

Definition chars (s : string) : list string :=
  match s with
  | EmptyString => []
  | String c s' => chars_from (String c EmptyString) s'
  end.

(** [str(n)] for an integer: decimal digits, with a minus sign. *)
Definition str_of_int (n : Z) : string := NilZero.string_of_int (Z.to_int n).

Definition hex_digit (n : Z) : ascii :=
  if n <? 10 then chr (48 + n) else chr (87 + n).

(** [repr(s)] for ASCII text: single quotes unless the text has a single
    and no double quote; backslash, the quote and control characters are
    escaped. *)
Definition escape_char (quote : ascii) (c : ascii) : string :=
  if Ascii.eqb c "\" then "\\"
  else if Ascii.eqb c quote then String "\" (String c EmptyString)
  else if code c =? 9 then "\t"
  else if code c =? 10 then "\n"
  else if code c =? 13 then "\r"
  else if (code c <? 32) || (code c =? 127) then
    String "\" (String "x" (String (hex_digit (code c / 16))
                                  (String (hex_digit (code c mod 16)) EmptyString)))
  else String c EmptyString.

Fixpoint escape (quote : ascii) (s : string) : string :=
  match s with
  | EmptyString => EmptyString
  | String c s' => escape_char quote c +++ escape quote s'
  end.

Definition ascii_repr (s : string) : string :=
  let quote : ascii :=
    if contains "'" s && negb (contains (String (chr 34) EmptyString) s)
    then chr 34 else "'"%char in
  String quote (escape quote s +++ String quote EmptyString).

(** [repr(s)] for a string *)
Definition repr_of_str `{U : Unicode} (s : string) : string :=
  if is_ascii s then ascii_repr s else unicode_repr s.

(** ** Values *)

Unset Elimination Schemes.
Inductive pyval : Type :=
| VNone
| VInt (n : Z)
| VStr (s : string)
| VList (l : list pyval).
Set Elimination Schemes.

Fixpoint pyval_eqb (a b : pyval) : bool :=
  match a, b with
  | VNone, VNone => true
  | VInt x, VInt y => Z.eqb x y
  | VStr s, VStr t => String.eqb s t
  | VList l, VList m =>
      (fix go (l m : list pyval) : bool :=
         match l, m with
         | [], [] => true
         | x :: l', y :: m' => pyval_eqb x y && go l' m'
         | _, _ => false
         end) l m
  | _, _ => false
  end.

Fixpoint py_repr `{U : Unicode} (v : pyval) : string :=
  match v with
  | VNone => "None"
  | VInt n => str_of_int n
  | VStr s => repr_of_str s
  | VList l => "[" +++ String.concat ", " (map py_repr l) +++ "]"
  end.

(** [str(v)], which is also what an f-string field [{v}] renders. *)
Definition py_str `{U : Unicode} (v : pyval) : string :=
  match v with
  | VStr s => s
  | _ => py_repr v
  end.

(** [*v] inside a list display: the elements of an iterable. *)
Definition py_iter (v : pyval) : result (list pyval) :=
  match v with
  | VList l => Ok l
  | VStr s => Ok (map VStr (chars s))
  | VNone | VInt _ => Raise TypeError
  end.

(** [hash(v)] succeeds: lists cannot be dictionary keys. *)
Definition hashable (v : pyval) : bool :=
  match v with
  | VList _ => false
  | _ => true
  end.

(** ** [int(v)] *)

(** The white space that [int] skips around an ASCII numeral: tab, line
    feed, vertical tab, form feed, carriage return and the space. *)
Definition is_space (c : ascii) : bool :=
  ((9 <=? code c) && (code c <=? 13)) || (code c =? 32).

Definition is_digit (c : ascii) : bool := (48 <=? code c) && (code c <=? 57).

Fixpoint lstrip (s : string) : string :=
  match s with
  | String c s' => if is_space c then lstrip s' else s
  | EmptyString => EmptyString
  end.

Fixpoint all_space (s : string) : bool :=
  match s with
  | EmptyString => true
  | String c s' => is_space c && all_space s'
  end.

(** Digits with single underscores between them, up to trailing white
    space; [after_digit] tells whether the previous character was a digit.
    Returns the value and the number of digits read. *)
Fixpoint digits (s : string) (after_digit : bool) (acc : Z) (count : Z)
  : option (Z * Z) :=
  match s with
  | EmptyString => if after_digit then Some (acc, count) else None
  | String c s' =>
      if is_digit c then digits s' true (10 * acc + (code c - 48)) (count + 1)
      else if Ascii.eqb c "_" then
        if after_digit then digits s' false acc count else None
      else if after_digit && all_space s then Some (acc, count)
      else None
  end.

(** [sys.int_info.default_max_str_digits] *)
Definition max_str_digits : Z := 4300.

(** [int(s)] for ASCII text, base 10: white space around, an optional
    sign, digits with single underscores between them, at most
    [max_str_digits] digits. *)
Definition ascii_int (s : string) : result Z :=
  let s1 := lstrip s in
  let '(sign, s2) :=
    match s1 with
    | String "-" r => (-1, r)
    | String "+" r => (1, r)
    | _ => (1, s1)
    end in
  match digits s2 false 0 0 with
  | Some (n, count) =>
      if count <=? max_str_digits then Ok (sign * n) else Raise ValueError
  | None => Raise ValueError
  end.

(** [int(s)] for a string *)
Definition int_of_str `{U : Unicode} (s : string) : result Z :=
  if is_ascii s then ascii_int s else unicode_int s.

Definition py_int `{U : Unicode} (v : pyval) : result Z :=
  match v with
  | VInt n => Ok n
  | VStr s => int_of_str s
  | VNone | VList _ => Raise TypeError
  end.

End Py.

Import Py.

Notation "'let?' x ':=' r 'in' k" := (Py.bind r (fun x => k))
  (at level 10, x name, r at level 100, k at level 200).

(* ===================================================================== *)
(** * [hashlib.sha256]                                                     *)
(* ===================================================================== *)

Module Sha256.

Definition wrap (x : Z) : Z := x mod 2 ^ 32.

Definition add32 (x y : Z) : Z := wrap (x + y).

Definition rotr (n x : Z) : Z :=
  Z.lor (Z.shiftr x n) (wrap (Z.shiftl x (32 - n))).

Definition not32 (x : Z) : Z := 2 ^ 32 - 1 - x.

Definition ch (x y z : Z) : Z := Z.lxor (Z.land x y) (Z.land (not32 x) z).
Definition maj (x y z : Z) : Z :=
  Z.lxor (Z.lxor (Z.land x y) (Z.land x z)) (Z.land y z).
Definition bsig0 (x : Z) : Z := Z.lxor (Z.lxor (rotr 2 x) (rotr 13 x)) (rotr 22 x).
Definition bsig1 (x : Z) : Z := Z.lxor (Z.lxor (rotr 6 x) (rotr 11 x)) (rotr 25 x).
Definition ssig0 (x : Z) : Z := Z.lxor (Z.lxor (rotr 7 x) (rotr 18 x)) (Z.shiftr x 3).
Definition ssig1 (x : Z) : Z := Z.lxor (Z.lxor (rotr 17 x) (rotr 19 x)) (Z.shiftr x 10).

(** Round constants: the first 32 bits of the fractional parts of the cube
    roots of the first 64 primes. *)
Definition round_constants : list Z :=
[ 1116352408; 1899447441; 3049323471; 3921009573; 961987163; 1508970993;
  2453635748; 2870763221; 3624381080; 310598401; 607225278; 1426881987;
  1925078388; 2162078206; 2614888103; 3248222580; 3835390401; 4022224774;
  264347078; 604807628; 770255983; 1249150122; 1555081692; 1996064986;
  2554220882; 2821834349; 2952996808; 3210313671; 3336571891; 3584528711;
  113926993; 338241895; 666307205; 773529912; 1294757372; 1396182291;
  1695183700; 1986661051; 2177026350; 2456956037; 2730485921; 2820302411;
  3259730800; 3345764771; 3516065817; 3600352804; 4094571909; 275423344;
  430227734; 506948616; 659060556; 883997877; 958139571; 1322822218;
  1537002063; 1747873779; 1955562222; 2024104815; 2227730452; 2361852424;
  2428436474; 2756734187; 3204031479; 3329325298 ].

(** Initial state: fractional parts of the square roots of the first 8
    primes. *)
Definition initial_state : list Z :=
[ 1779033703; 3144134277; 1013904242; 2773480762;
  1359893119; 2600822924; 528734635; 1541459225 ].

(** Big-endian bytes of an unsigned number, [n] of them. *)
Fixpoint be_bytes (n : nat) (x : Z) : list Z :=
  match n with
  | O => []
  | S n' => (be_bytes n' (x / 256) ++ [x mod 256])%list
  end.

Definition pad (msg : list Z) : list Z :=
  let len := Z.of_nat (List.length msg) in
  let zeros := (55 - len) mod 64 in
  (msg ++ [128] ++ repeat 0 (Z.to_nat zeros) ++ be_bytes 8 (8 * len))%list.

(** The 32-bit big-endian words of a byte string. *)
Fixpoint words (fuel : nat) (bs : list Z) : list Z :=
  match fuel, bs with
  | S fuel', a :: b :: c :: d :: rest =>
      (((a * 256 + b) * 256 + c) * 256 + d) :: words fuel' rest
  | _, _ => []
  end.

(** Message schedule: [w] holds W(t-1), W(t-2), ... most recent first. *)
Fixpoint schedule (n : nat) (w : list Z) : list Z :=
  match n with
  | O => w
  | S n' =>
      let next :=
        add32 (add32 (ssig1 (nth 1 w 0)) (nth 6 w 0))
              (add32 (ssig0 (nth 14 w 0)) (nth 15 w 0)) in
      schedule n' (next :: w)
  end.

Definition round (st : list Z) (kw : Z * Z) : list Z :=
  match st with
  | [a; b; c; d; e; f; g; h] =>
      let t1 := add32 (add32 (add32 h (bsig1 e)) (add32 (ch e f g) (fst kw))) (snd kw) in
      let t2 := add32 (bsig0 a) (maj a b c) in
      [add32 t1 t2; a; b; c; add32 d t1; e; f; g]
  | _ => st
  end.

Definition compress (st : list Z) (block : list Z) : list Z :=
  let w := rev (schedule 48 (rev block)) in
  let st' := fold_left round (combine round_constants w) st in
  map (fun p => add32 (fst p) (snd p)) (combine st st').

Fixpoint blocks (fuel : nat) (ws : list Z) (st : list Z) : list Z :=
  match fuel, ws with
  | S fuel', _ :: _ => blocks fuel' (skipn 16 ws) (compress st (firstn 16 ws))
  | _, _ => st
  end.

Definition digest (msg : list Z) : list Z :=
  let bs := pad msg in
  let ws := words (List.length bs) bs in
  flat_map (be_bytes 4) (blocks (List.length ws) ws initial_state).

Fixpoint hex (bs : list Z) : string :=
  match bs with
  | [] => EmptyString
  | b :: bs' => String (hex_digit (b / 16)) (String (hex_digit (b mod 16)) (hex bs'))
  end.

(** [hashlib.sha256(msg).hexdigest()] *)
Definition hexdigest (msg : list Z) : string := hex (digest msg).

End Sha256.

(* ===================================================================== *)
(** * Python dictionaries                                                  *)
(* ===================================================================== *)

(** Equality of dictionary keys. *)
Class Eqb (K : Type) := eqb : K -> K -> bool.

#[export] Instance string_Eqb : Eqb string := String.eqb.
#[export] Instance pyval_Eqb : Eqb pyval := pyval_eqb.

Module Dict.

Section Ops.
Context {K V : Type} `{Eqb K}.

(** [d.get(k)] *)
Fixpoint get (d : list (K * V)) (k : K) : option V :=
  match d with
  | [] => None
  | (k', v) :: d' => if eqb k' k then Some v else get d' k
  end.

(** [d.get(k, default)] *)
Definition get_default (d : list (K * V)) (k : K) (default : V) : V :=
  match get d k with
  | Some v => v
  | None => default
  end.

(** [d[k] = v]: an existing key keeps its place, a new key goes last. *)
Fixpoint set (d : list (K * V)) (k : K) (v : V) : list (K * V) :=
  match d with
  | [] => [(k, v)]
  | (k', v') :: d' =>
      if eqb k' k then (k', v) :: d' else (k', v') :: set d' k v
  end.

Definition keys (d : list (K * V)) : list K := map fst d.
Definition values (d : list (K * V)) : list V := map snd d.

(** [{**d, k1: v1, ..., kn: vn}] *)
Definition update (d : list (K * V)) (items : list (K * V)) : list (K * V) :=
  fold_left (fun acc kv => set acc (fst kv) (snd kv)) items d.

(** [dict(items)] *)
Definition of_items (items : list (K * V)) : list (K * V) := update [] items.

(** [del d[k]]; the other keys keep their order. *)
Fixpoint delete (d : list (K * V)) (k : K) : list (K * V) :=
  match d with
  | [] => []
  | (k', v) :: d' => if eqb k' k then delete d' k else (k', v) :: delete d' k
  end.

End Ops.

End Dict.

(** A dictionary: key and value pairs in insertion order. *)
Definition dict (K V : Type) : Type := list (K * V).

(** [d[k]] on a dictionary with string keys. *)
Definition getitem {V} (d : dict string V) (k : string) : result V :=
  match Dict.get d k with
  | Some v => Ok v
  | None => Raise (KeyError k)
  end.

(* ===================================================================== *)
(** * Data model                                                           *)
(* ===================================================================== *)

(** A document record or a metadata draft: a flat JSON object. *)
Definition document : Type := dict string pyval.

(** The content of [categories.json] and of [self.categories]: the keys
    ["categories"] and ["category_counts"].  [get_popular_categories] reads
    the second with a default, [add_document] without one, so the key may be
    absent. *)
Record taxonomy : Type := {
  categories : dict string (list string);
  category_counts : option (dict pyval Z)
}.

(** The [DocumentManager] object: [self.metadata] and [self.categories]. *)
Record manager : Type := {
  metadata : dict string document;
  taxonomy_of : taxonomy
}.

(** An entry of [saved_agents.json], as [save_agent] writes it. *)
Record doc_ref : Type := {
  ref_title : pyval;
  ref_hash : string
}.

Record saved_agent : Type := {
  name : string;
  role : string;
  style : string;
  detail_level : string;
  temperature : Q;
  max_tokens : Z;
  context_window : Z;
  docs : list doc_ref;
  created_at : string
}.

(* ===================================================================== *)
(** * The world outside: JSON files, paths, the vector store               *)
(* ===================================================================== *)

Module World.

(** What the bytes of a file amount to for [json.load]. *)
Inductive text (A : Type) : Type :=
| Garbled
| Json (v : A).
Arguments Garbled {A}.
Arguments Json {A} v.

(** A path that holds a JSON file: absent or present, and whether it can be
    opened for reading and for writing. *)
Record file (A : Type) : Type := {
  content : option (text A);
  readable : bool;
  writable : bool
}.
Arguments content {A} f.
Arguments readable {A} f.
Arguments writable {A} f.

(** [os.path.exists(path)] *)
Definition file_exists {A} (f : file A) : bool :=
  match content f with Some _ => true | None => false end.

(** [with open(path, 'r') as f: return json.load(f)].  [reload] is what a
    dumped value reads back as. *)
Definition read_json {A} (reload : A -> A) (f : file A) : result A :=
  if readable f then
    match content f with
    | None => Raise OSError
    | Some Garbled => Raise JSONDecodeError
    | Some (Json v) => Ok (reload v)
    end
  else Raise OSError.

(** [with open(path, 'w') as f: json.dump(v, f)]: the whole file is
    replaced, or the open fails and the file is as before. *)
Definition write_json {A} (f : file A) (v : A) : result (file A) :=
  if writable f then
    Ok {| content := Some (Json v); readable := readable f; writable := true |}
  else Raise OSError.

(** A handle on a Chroma collection and a retriever over it. *)
Record vectorstore : Type := { persist_directory : string }.
Record retriever : Type := { store : vectorstore; k : Z }.

Record world : Type := {
  metadata_file : file (dict string document);     (* data/metadata.json *)
  categories_file : file taxonomy;                 (* data/categories.json *)
  saved_agents_file : file (dict string saved_agent); (* data/saved_agents.json *)
  (** every other path that exists, and the open file descriptors *)
  paths : list string;
  descriptors : list Z;
  (** [Chroma(persist_directory=p, embedding_function=OpenAIEmbeddings())]
      and [vectorstore.as_retriever(search_kwargs={"k": k})] *)
  chroma : pyval -> result vectorstore;
  as_retriever : vectorstore -> Z -> result retriever
}.

(** [os.path.exists(p)] for a value taken from a record: a path, a file
    descriptor, or a [TypeError]. *)
Definition path_exists (w : world) (p : pyval) : result bool :=
  match p with
  | VStr s => Ok (existsb (String.eqb s) (paths w))
  | VInt n => Ok (existsb (Z.eqb n) (descriptors w))
  | VNone | VList _ => Raise TypeError
  end.

Definition with_metadata_file (w : world) (f : file (dict string document)) : world :=
  {| metadata_file := f; categories_file := categories_file w;
     saved_agents_file := saved_agents_file w; paths := paths w;
     descriptors := descriptors w; chroma := chroma w;
     as_retriever := as_retriever w |}.

Definition with_categories_file (w : world) (f : file taxonomy) : world :=
  {| metadata_file := metadata_file w; categories_file := f;
     saved_agents_file := saved_agents_file w; paths := paths w;
     descriptors := descriptors w; chroma := chroma w;
     as_retriever := as_retriever w |}.

Definition with_saved_agents_file (w : world) (f : file (dict string saved_agent))
  : world :=
  {| metadata_file := metadata_file w; categories_file := categories_file w;
     saved_agents_file := f; paths := paths w;
     descriptors := descriptors w; chroma := chroma w;
     as_retriever := as_retriever w |}.

Definition with_paths (w : world) (ps : list string) : world :=
  {| metadata_file := metadata_file w; categories_file := categories_file w;
     saved_agents_file := saved_agents_file w; paths := ps;
     descriptors := descriptors w; chroma := chroma w;
     as_retriever := as_retriever w |}.

(** [os.makedirs(path, exist_ok=True)].  [makedirs] tells, for a path,
    whether the directory is there or can be made; when it is, the path
    exists afterwards. *)
Definition ensure_dir (makedirs : string -> bool) (path : string) (w : world)
  : result unit * world :=
  if makedirs path then
    (Ok tt,
     with_paths w (if existsb (String.eqb path) (paths w) then paths w
                   else path :: paths w))
  else (Raise OSError, w).

End World.

Import World.

(* ===================================================================== *)
(** * [utils/document_manager.py]: class [DocumentManager]                 *)
(* ===================================================================== *)

Module DocumentManager.

(** ** Methods that mutate: the manager and the disk are threaded, and an
    exception leaves the mutations made before it in place. *)

Record state : Type := {
  self : manager;
  disk : world
}.

Definition M (A : Type) : Type := state -> result A * state.

Definition ret {A} (a : A) : M A := fun st => (Ok a, st).

Definition bindM {A B} (m : M A) (k : A -> M B) : M B :=
  fun st =>
    match m st with
    | (Ok a, st') => k a st'
    | (Raise e, st') => (Raise e, st')
    end.

Definition lift {A} (r : result A) : M A := fun st => (r, st).

(** [try: body  except Exception as e: raise handler(e)] *)
Definition reraise {A} (handler : exn -> exn) (body : M A) : M A :=
  fun st =>
    match body st with
    | (Ok a, st') => (Ok a, st')
    | (Raise e, st') => (Raise (handler e), st')
    end.

Definition read_self : M manager := fun st => (Ok (self st), st).

Definition write_self (m : manager) : M unit :=
  fun st => (Ok tt, {| self := m; disk := disk st |}).

Definition on_disk (f : world -> world) : M unit :=
  fun st => (Ok tt, {| self := self st; disk := f (disk st) |}).

Notation "x <- m ;; k" := (bindM m (fun x => k))
  (at level 61, m at next level, right associativity).
Notation "m ;;; k" := (bindM m (fun _ => k))
  (at level 61, right associativity).

(** ** Loading and saving *)

(** [_save_metadata]: the write is attempted; a failure is printed and
    swallowed. *)
Definition _save_metadata (metadata : dict string document) (w : world) : world :=
  match write_json (metadata_file w) metadata with
  | Ok f => with_metadata_file w f
  | Raise _ => w
  end.

(** [_save_categories] *)
Definition _save_categories (categories : taxonomy) (w : world) : world :=
  match write_json (categories_file w) categories with
  | Ok f => with_categories_file w f
  | Raise _ => w
  end.

(** [_load_metadata]: both [except] clauses print and fall through to the
    code that writes and returns the empty mapping. *)
Definition _load_metadata (w : world) : dict string document * world :=
  let attempt : result (option (dict string document)) :=
    if file_exists (metadata_file w) then
      let? v := read_json (fun v => v) (metadata_file w) in Ok (Some v)
    else Ok None in
  match attempt with
  | Ok (Some v) => (v, w)
  | Ok None | Raise _ => ([], _save_metadata [] w)
  end.

Definition default_categories : taxonomy := {|
  categories := [
    ("Matemáticas", ["Álgebra"; "Cálculo"; "Geometría"; "Estadística"]);
    ("Ciencias", ["Física"; "Química"; "Biología"; "Astronomía"]);
    ("Programación", ["Python"; "JavaScript"; "Java"; "Web Development"]);
    ("Idiomas", ["Inglés"; "Español"; "Francés"; "Alemán"]);
    ("Historia", ["Historia Mundial"; "Historia del Arte"; "Arqueología"]);
    ("Literatura", ["Narrativa"; "Poesía"; "Teatro"; "Ensayo"])
  ];
  category_counts := Some []
|}.

(** A key of a dumped object is a string: [json.dump] writes an integer key
    in decimal and [None] as [null]. *)
Definition json_key (key : pyval) : pyval :=
  match key with
  | VInt n => VStr (str_of_int n)
  | VNone => VStr "null"
  | VStr _ | VList _ => key
  end.

(** What a dumped taxonomy reads back as: when two keys are written alike
    the later value is kept. *)
Definition reload_taxonomy (t : taxonomy) : taxonomy := {|
  categories := categories t;
  category_counts :=
    option_map
      (fun counts => Dict.of_items (map (fun kv => (json_key (fst kv), snd kv)) counts))
      (category_counts t)
|}.

(** [_load_categories] *)
Definition _load_categories (w : world) : taxonomy * world :=
  let attempt : result (option taxonomy) :=
    if file_exists (categories_file w) then
      let? v := read_json reload_taxonomy (categories_file w) in Ok (Some v)
    else Ok None in
  match attempt with
  | Ok (Some v) => (v, w)
  | Ok None | Raise _ => (default_categories, _save_categories default_categories w)
  end.

(** ** Queries *)

(** [get_total_documents] *)
Definition get_total_documents (m : manager) : Z :=
  Z.of_nat (List.length (metadata m)).

(** [get_categories] *)
Definition get_categories (m : manager) : dict string (list string) :=
  categories (taxonomy_of m).

(** [sorted(items, key=lambda x: x[1], reverse=True)]: the sort is stable,
    also when reversed, so among equal counts the earlier item stays
    first. *)
Fixpoint insert_desc {K} (x : K * Z) (l : list (K * Z)) : list (K * Z) :=
  match l with
  | [] => [x]
  | y :: l' => if snd x <? snd y then y :: insert_desc x l' else x :: l
  end.

Definition sorted_desc {K} (items : list (K * Z)) : list (K * Z) :=
  fold_right insert_desc [] items.

(** [get_popular_categories] *)
Definition get_popular_categories (m : manager) : dict pyval Z :=
  let counts :=
    match category_counts (taxonomy_of m) with
    | Some c => c
    | None => []
    end in
  Dict.of_items (firstn 8 (sorted_desc counts)).

(** [d.get(key) == v] for a string [v] *)
Definition field_is (doc : document) (key : string) (v : pyval) : bool :=
  match Dict.get doc key with
  | Some x => pyval_eqb x v
  | None => pyval_eqb VNone v
  end.

(** [get_documents_by_category] *)
Definition get_documents_by_category (m : manager) (category : pyval) : list document :=
  filter (fun doc => field_is doc "category" category) (Dict.values (metadata m)).

(** [get_document] *)
Definition get_document (m : manager) (doc_hash : string) : option document :=
  Dict.get (metadata m) doc_hash.

(** ** [search_documents] *)

(** The values a filter takes in the catalog page: [None], the text of a
    select box, or the pair of a range slider. *)
Inductive filter_value : Type :=
| FNone
| FStr (s : string)
| FRange (lo hi : Z).

(** [if value and value != "Todas" and value != "Todos"] *)
Definition restricts (value : filter_value) : bool :=
  match value with
  | FNone => false
  | FStr s =>
      negb (String.eqb s "") && negb (String.eqb s "Todas") && negb (String.eqb s "Todos")
  | FRange _ _ => true
  end.

(** [value[0] <= int(doc.get('year', 0)) <= value[1]]: the year is
    converted before the first comparison is made. *)
Definition in_year_range `{U : Unicode} (value : filter_value) (doc : document) : result bool :=
  match value with
  | FRange lo hi =>
      let? year := py_int (Dict.get_default doc "year" (VInt 0)) in
      Ok ((lo <=? year) && (year <=? hi))
  | FStr _ =>
      let? year := py_int (Dict.get_default doc "year" (VInt 0)) in
      Raise TypeError
  | FNone => Raise TypeError
  end.

(** [doc.get(key) == value] *)
Definition field_equals (key : string) (value : filter_value) (doc : document) : bool :=
  match value with
  | FStr s => field_is doc key (VStr s)
  | FNone => field_is doc key VNone
  | FRange _ _ => false
  end.

(** One turn of the loop over [filters.items()]. *)
Definition apply_filter `{U : Unicode} (results : list document) (kv : string * filter_value)
  : result (list document) :=
  let '(key, value) := kv in
  if restricts value then
    if String.eqb key "year_range" then filterM (in_year_range value) results
    else Ok (filter (field_equals key value) results)
  else Ok results.

Fixpoint apply_filters `{U : Unicode} (results : list document) (items : list (string * filter_value))
  : result (list document) :=
  match items with
  | [] => Ok results
  | kv :: items' =>
      let? results' := apply_filter results kv in
      apply_filters results' items'
  end.

(** [any(query in str(value).lower() for value in
         [doc.get('title', ''), doc.get('description', ''),
          doc.get('author', ''), *doc.get('tags', [])])] *)
Definition matches_query `{U : Unicode} (query : string) (doc : document) : result bool :=
  let? tags := py_iter (Dict.get_default doc "tags" (VList [])) in
  let fields :=
    Dict.get_default doc "title" (VStr "")
    :: Dict.get_default doc "description" (VStr "")
    :: Dict.get_default doc "author" (VStr "")
    :: tags in
  Ok (existsb (fun value => contains query (lower (py_str value))) fields).

Definition search_documents `{U : Unicode} (m : manager) (query : option string)
    (filters : option (dict string filter_value)) : result (list document) :=
  let results := Dict.values (metadata m) in
  let? results :=
    match filters with
    | Some items => apply_filters results items
    | None => Ok results
    end in
  match query with
  | Some (String c q) => filterM (matches_query (lower (String c q))) results
  | Some EmptyString | None => Ok results
  end.

(** ** [add_document] *)

(** The string that is hashed: [f"{title}_{author}_{year}"]. *)
Definition hash_input `{U : Unicode} (title author year : pyval) : string :=
  py_str title +++ "_" +++ py_str author +++ "_" +++ py_str year.

Definition compute_hash `{U : Unicode} (title author year : pyval) : string :=
  Sha256.hexdigest (encode (hash_input title author year)).

(** [now] is the reading of [datetime.now().isoformat()] during the call. *)
Definition add_document `{U : Unicode} (now : string) (metadata_draft : document)
    (vectorstore_path original_path : string) : M string :=
  reraise Error_adding_document (
    title <- lift (getitem metadata_draft "title") ;;
    author <- lift (getitem metadata_draft "author") ;;
    year <- lift (getitem metadata_draft "year") ;;
    let doc_hash := compute_hash title author year in
    let full_metadata :=
      Dict.update metadata_draft [
        ("hash", VStr doc_hash);
        ("vectorstore_path", VStr vectorstore_path);
        ("original_path", VStr original_path);
        ("processed_date", VStr now)
      ] in
    m <- read_self ;;
    let m := {| metadata := Dict.set (metadata m) doc_hash full_metadata;
                taxonomy_of := taxonomy_of m |} in
    write_self m ;;;
    on_disk (_save_metadata (metadata m)) ;;;
    category <- lift (getitem metadata_draft "category") ;;
    counts <- lift (match category_counts (taxonomy_of m) with
                    | Some c => Ok c
                    | None => Raise (KeyError "category_counts")
                    end) ;;
    count <- lift (if hashable category
                   then Ok (Dict.get_default counts category 0)
                   else Raise TypeError) ;;
    let m := {| metadata := metadata m;
                taxonomy_of := {|
                  categories := categories (taxonomy_of m);
                  category_counts := Some (Dict.set counts category (count + 1))
                |} |} in
    write_self m ;;;
    on_disk (_save_categories (taxonomy_of m)) ;;;
    ret doc_hash).

(** ** Construction *)

(** [_ensure_directory_structure] *)
Definition _ensure_directory_structure (makedirs : string -> bool) (w : world)
  : result unit * world :=
  match ensure_dir makedirs "data" w with
  | (Ok _, w1) => ensure_dir makedirs "data/processed_docs" w1
  | (Raise e, w1) => (Raise e, w1)
  end.

(** [__init__]: the directories, then the two stores. *)
Definition __init__ (makedirs : string -> bool) (w : world) : result manager * world :=
  match _ensure_directory_structure makedirs w with
  | (Raise e, w1) => (Raise e, w1)
  | (Ok _, w1) =>
      let '(metadata, w2) := _load_metadata w1 in
      let '(categories, w3) := _load_categories w2 in
      (Ok {| metadata := metadata; taxonomy_of := categories |}, w3)
  end.

End DocumentManager.

Import DocumentManager.

(* ===================================================================== *)
(** * [pages/2_🤖_agents.py]: loading a saved agent                        *)
(* ===================================================================== *)

Module Agents.

(** An element of [config['vectorstores']]. *)
Record resolved_index : Type := {
  hash : pyval;
  title : pyval;
  vectorstore_of : vectorstore;
  retriever_of : retriever
}.

(** [{**saved_agent, 'vectorstores': vectorstores}] *)
Record agent_config : Type := {
  saved : saved_agent;
  vectorstores : list resolved_index
}.

(** [load_saved_agents]: any exception is reported on the page and the
    empty mapping is returned. *)
Definition load_saved_agents (w : world) : dict string saved_agent :=
  let attempt : result (option (dict string saved_agent)) :=
    if file_exists (saved_agents_file w) then
      let? v := read_json (fun v => v) (saved_agents_file w) in Ok (Some v)
    else Ok None in
  match attempt with
  | Ok (Some v) => v
  | Ok None | Raise _ => []
  end.

(** [if doc and os.path.exists(doc.get('vectorstore_path', ''))] *)
Definition usable (w : world) (doc : option document) : result bool :=
  match doc with
  | None | Some [] => Ok false
  | Some d => path_exists w (Dict.get_default d "vectorstore_path" (VStr ""))
  end.

(** The body of the loop over [saved_agent['docs']]: the entry appended to
    [vectorstores], if any. *)
Definition resolve_ref (doc_manager : manager) (w : world) (agent : saved_agent)
    (doc_info : doc_ref) : result (option resolved_index) :=
  let doc := get_document doc_manager (ref_hash doc_info) in
  let? ok := usable w doc in
  if ok then
    let d := match doc with Some d => d | None => [] end in
    let? path := getitem d "vectorstore_path" in
    let? vs := chroma w path in
    let? h := getitem d "hash" in
    let? t := getitem d "title" in
    let? r := as_retriever w vs (context_window agent) in
    Ok (Some {| hash := h; title := t; vectorstore_of := vs; retriever_of := r |})
  else Ok None.

Fixpoint resolve_refs (doc_manager : manager) (w : world) (agent : saved_agent)
    (refs : list doc_ref) : result (list resolved_index) :=
  match refs with
  | [] => Ok []
  | doc_info :: refs' =>
      let? entry := resolve_ref doc_manager w agent doc_info in
      let? rest := resolve_refs doc_manager w agent refs' in
      Ok (match entry with Some e => e :: rest | None => rest end)
  end.

(** [load_agent_config]: [None] when the agent is unknown or anything
    raised. *)
Definition load_agent_config (agent_id : string) (doc_manager : manager) (w : world)
  : option agent_config :=
  let agents := load_saved_agents w in
  match Dict.get agents agent_id with
  | None => None
  | Some saved_agent =>
      match resolve_refs doc_manager w saved_agent (docs saved_agent) with
      | Ok vs => Some {| saved := saved_agent; vectorstores := vs |}
      | Raise _ => None
      end
  end.

(** ** Saving and deleting *)

(** An element of [agent_config['vectorstores']] as the page that creates an
    agent builds it; ['hash'] is the id under which the record was found. *)
Record selected_index : Type := {
  selected_title : pyval;
  selected_hash : string;
  selected_store : vectorstore;
  selected_retriever : retriever
}.

(** The [agent_config] that the page hands to [save_agent]. *)
Record agent_form : Type := {
  form_name : string;
  form_role : string;
  form_style : string;
  form_detail_level : string;
  form_temperature : Q;
  form_max_tokens : Z;
  form_context_window : Z;
  form_vectorstores : list selected_index
}.

(** The entry that [save_agent] stores: the form without the live handles. *)
Definition entry_of (created : string) (agent_config : agent_form) : saved_agent := {|
  name := form_name agent_config;
  role := form_role agent_config;
  style := form_style agent_config;
  detail_level := form_detail_level agent_config;
  temperature := form_temperature agent_config;
  max_tokens := form_max_tokens agent_config;
  context_window := form_context_window agent_config;
  docs := map (fun vs => {| ref_title := selected_title vs; ref_hash := selected_hash vs |})
              (form_vectorstores agent_config);
  created_at := created
|}.

(** [save_agent].  [stamp] is [datetime.now().strftime('%Y%m%d_%H%M%S')] and
    [created] is [datetime.now().isoformat()]; any exception is reported on
    the page and [None] is returned. *)
Definition save_agent (makedirs : string -> bool) (stamp created : string)
    (agent_config : agent_form) (w : world) : option string * world :=
  let agents := load_saved_agents w in
  let agent_id := "agent_" +++ stamp in
  let agents := Dict.set agents agent_id (entry_of created agent_config) in
  match ensure_dir makedirs "data" w with
  | (Raise _, w1) => (None, w1)
  | (Ok _, w1) =>
      match write_json (saved_agents_file w1) agents with
      | Ok f => (Some agent_id, with_saved_agents_file w1 f)
      | Raise _ => (None, w1)
      end
  end.

(** [delete_agent] *)
Definition delete_agent (agent_id : string) (w : world) : bool * world :=
  let agents := load_saved_agents w in
  match Dict.get agents agent_id with
  | Some _ =>
      match write_json (saved_agents_file w) (Dict.delete agents agent_id) with
      | Ok f => (true, with_saved_agents_file w f)
      | Raise _ => (false, w)
      end
  | None => (false, w)
  end.

End Agents.

Import Agents.

(* ===================================================================== *)
(** * [pages/4_📤_upload.py]: file names and loaders                       *)
(* ===================================================================== *)

Module Upload.

(** [SUPPORTED_FORMATS] *)
Definition SUPPORTED_FORMATS : dict string (string * string) := [
  ("pdf", ("PDF", ".pdf"));
  ("docx", ("Word", ".docx"));
  ("doc", ("Word", ".doc"));
  ("epub", ("EPub", ".epub"));
  ("txt", ("Text", ".txt"));
  ("html", ("HTML", ".html"));
  ("pptx", ("PowerPoint", ".pptx"));
  ("ppt", ("PowerPoint", ".ppt"))
].

(** The loader classes of the document-loading library. *)
Inductive loader_class : Type :=
| PyPDFLoader
| UnstructuredWordDocumentLoader
| UnstructuredEPubLoader
| UnstructuredHTMLLoader
| UnstructuredPowerPointLoader.

(** The table inside [get_document_loader]. *)
Definition loaders : dict string loader_class := [
  ("pdf", PyPDFLoader);
  ("docx", UnstructuredWordDocumentLoader);
  ("doc", UnstructuredWordDocumentLoader);
  ("epub", UnstructuredEPubLoader);
  ("html", UnstructuredHTMLLoader);
  ("txt", UnstructuredHTMLLoader);
  ("pptx", UnstructuredPowerPointLoader);
  ("ppt", UnstructuredPowerPointLoader)
].

(** [get_document_loader], up to the call of the class it selects: the class,
    or the [ValueError] for a format without one. *)
Definition get_document_loader (file_type : string) : result loader_class :=
  match Dict.get loaders file_type with
  | Some loader => Ok loader
  | None => Raise ValueError
  end.

Definition is_ascii_alnum (c : ascii) : bool :=
  is_digit c || is_upper c || ((97 <=? code c) && (code c <=? 122)).

(** [c.isalnum()] for one character: decided here for ASCII; for a character
    of several bytes it is what [isalnum] answers. *)
Definition char_isalnum (isalnum : string -> bool) (c : string) : bool :=
  match c with
  | String a EmptyString => if code a <? 128 then is_ascii_alnum a else isalnum c
  | _ => isalnum c
  end.

(** [clean_filename]:
    ["".join(c if c.isalnum() or c in "._- " else "_" for c in filename)] *)
Definition clean_filename (isalnum : string -> bool) (filename : string) : string :=
  String.concat ""
    (map (fun c => if char_isalnum isalnum c || contains c "._- " then c else "_")
         (chars filename)).

End Upload.

Import Upload.

(* ===================================================================== *)
(** * [pages/5_📑_document_chat.py]: the recent history                    *)
(* ===================================================================== *)

Module Chat.

(** [l[-n:]] *)
Definition slice_last {A} (l : list A) (n : Z) : list A :=
  let len := Z.of_nat (List.length l) in
  let start := if - n <? 0 then Z.max 0 (len - n) else Z.min (- n) len in
  skipn (Z.to_nat start) l.

(** One turn of the loop of [get_recent_history]. *)
Definition format_message `{U : Unicode} (msg : document) : result string :=
  let? role := getitem msg "role" in
  let label := if pyval_eqb role (VStr "user") then "Human" else "Assistant" in
  let? content := getitem msg "content" in
  Ok (label +++ ": " +++ py_str content).

Fixpoint format_messages `{U : Unicode} (msgs : list document) : result (list string) :=
  match msgs with
  | [] => Ok []
  | msg :: msgs' =>
      let? line := format_message msg in
      let? rest := format_messages msgs' in
      Ok (line :: rest)
  end.

Definition newline : string := String (chr 10) EmptyString.

(** [get_recent_history] *)
Definition get_recent_history `{U : Unicode} (messages : list document) (max_messages : Z)
  : result string :=
  let recent_messages :=
    match messages with
    | [] => []
    | _ :: _ => slice_last messages max_messages
    end in
  let? formatted_history := format_messages recent_messages in
  Ok (String.concat newline formatted_history).

End Chat.

Import Chat.

(* ===================================================================== *)
(** * Vocabulary of the properties, and example data                       *)
(* ===================================================================== *)

(** One call of [add_document], with the clock reading it sees. *)
Record call : Type := {
  at_time : string;
  draft : document;
  index_path : string;
  source_path : string
}.

Definition perform `{U : Unicode} (c : call) : M string :=
  add_document (at_time c) (draft c) (index_path c) (source_path c).

(** The calls are made one after the other; the caller catches what a call
    raises (as the upload page does) and goes on. *)
Fixpoint run_calls `{U : Unicode} (cs : list call) (st : state) : list (result string) * state :=
  match cs with
  | [] => ([], st)
  | c :: cs' =>
      let '(r, st1) := perform c st in
      let '(rs, st2) := run_calls cs' st1 in
      (r :: rs, st2)
  end.

(** [category_counts[c]], an absent key counting as zero. *)
Definition count_of (st : state) (c : pyval) : Z :=
  match category_counts (taxonomy_of (self st)) with
  | Some counts => Dict.get_default counts c 0
  | None => 0
  end.

(** The number of calls that returned an id and whose draft was filed under
    [c]. *)
Fixpoint successes (c : pyval) (cs : list call) (rs : list (result string)) : Z :=
  match cs, rs with
  | call :: cs', r :: rs' =>
      (if is_ok r && field_is (draft call) "category" c then 1 else 0)
      + successes c cs' rs'
  | _, _ => 0
  end.

(** The keys that [add_document] adds to a draft. *)
Definition system_keys : list string :=
  ["hash"; "vectorstore_path"; "original_path"; "processed_date"].

(** The record that [add_document] stores for a draft. *)
Definition stored_record (now : string) (d : document) (h vp op : string) : document :=
  Dict.update d [("hash", VStr h); ("vectorstore_path", VStr vp);
                 ("original_path", VStr op); ("processed_date", VStr now)].

(** Induction on values, through the lists they nest. *)
Fixpoint pyval_ind' (P : pyval -> Prop)
    (HNone : P VNone) (HInt : forall n, P (VInt n)) (HStr : forall s, P (VStr s))
    (HList : forall l, Forall P l -> P (VList l))
    (v : pyval) {struct v} : P v :=
  match v with
  | VNone => HNone
  | VInt n => HInt n
  | VStr s => HStr s
  | VList l =>
      HList l
        ((fix each (l : list pyval) : Forall P l :=
            match l with
            | [] => Forall_nil P
            | x :: l' => Forall_cons x (pyval_ind' P HNone HInt HStr HList x) (each l')
            end) l)
  end.

(** [a] ranks no lower than [b]. *)
Definition higher {K} (a b : K * Z) : Prop := snd b <= snd a.

Definition counts_as {K} (n : Z) (kv : K * Z) : bool := snd kv =? n.

(** The taxonomy after one more document was filed under [c]. *)
Definition counted (t : taxonomy) (counts : dict pyval Z) (c : pyval) : taxonomy :=
  {| categories := categories t;
     category_counts := Some (Dict.set counts c (Dict.get_default counts c 0 + 1)) |}.

Definition open_store (p : pyval) : result vectorstore :=
  match p with
  | VStr s => Ok {| persist_directory := s |}
  | _ => Raise TypeError
  end.

Definition empty_file {A} : file A :=
  {| content := None; readable := true; writable := true |}.

(** A file that holds [v] and cannot be opened for writing. *)
Definition locked_file {A} (v : A) : file A :=
  {| content := Some (Json v); readable := true; writable := false |}.

Definition fresh_world : world := {|
  metadata_file := empty_file;
  categories_file := empty_file;
  saved_agents_file := empty_file;
  paths := [];
  descriptors := [0; 1; 2];
  chroma := open_store;
  as_retriever := fun vs n => Ok {| store := vs; k := n |}
|}.

Definition fresh_state : state := {|
  self := {| metadata := []; taxonomy_of := default_categories |};
  disk := fresh_world
|}.

(** The library after a start on a disk whose [metadata.json] is read-only
    and empty. *)
Definition locked_state : state := {|
  self := {| metadata := []; taxonomy_of := default_categories |};
  disk := with_metadata_file fresh_world (locked_file [])
|}.

Definition calc_draft : document := [
  ("title", VStr "Calc I");
  ("category", VStr "Matemáticas");
  ("type", VStr "Libro de Texto");
  ("level", VStr "Intermedio");
  ("language", VStr "Español");
  ("author", VStr "Rivas");
  ("year", VInt 2020);
  ("tags", VList [VStr "Límites"; VStr "derivadas"]);
  ("description", VStr "Curso de cálculo diferencial")
].

Definition calc_call : call := {|
  at_time := "2024-05-01T10:00:00.000000";
  draft := calc_draft;
  index_path := "data/processed_docs/Calc_I/vectorstore";
  source_path := "data/processed_docs/Calc_I/original.pdf"
|}.

Definition calc_hash : string :=
  "a353b30f756ae8209822571dfb450e6fd88f7b036b5d22275a7833ad10e01568".

(** Two drafts that differ in the title and in the author, stored in the same
    library, and a third that differs from the first in the year alone. *)
Definition draft_ab_c : document :=
  [("title", VStr "a_b"); ("author", VStr "c"); ("year", VInt 2020);
   ("category", VStr "Ciencias")].

Definition draft_a_bc : document :=
  [("title", VStr "a"); ("author", VStr "b_c"); ("year", VInt 2020);
   ("category", VStr "Ciencias")].

Definition draft_ab_c_text_year : document :=
  [("title", VStr "a_b"); ("author", VStr "c"); ("year", VStr "2020");
   ("category", VStr "Ciencias")].

(** A small library: a record with an integer year, one whose year is a
    numeric string, one without a year. *)
Definition algebra_record : document := [
  ("title", VStr "Álgebra Lineal");
  ("category", VStr "Matemáticas");
  ("author", VStr "Grossman");
  ("year", VStr "2012");
  ("tags", VList [VStr "Matrices"; VStr "vectores"]);
  ("description", VStr "Espacios vectoriales")
].

Definition undated_record : document := [
  ("title", VStr "Apuntes de Física");
  ("category", VStr "Ciencias");
  ("author", VStr "Anónimo");
  ("tags", VList [VStr "mecánica"]);
  ("description", VStr "Notas de clase")
].

(** A record whose year is text that is not a number. *)
Definition poems_record : document := [
  ("title", VStr "Poemas humanos");
  ("category", VStr "Literatura");
  ("author", VStr "César Vallejo");
  ("year", VStr "s.f.");
  ("tags", VList [VStr "Poesía"]);
  ("description", VStr "Edición sin fecha")
].

Definition library : manager := {|
  metadata := [("c0", calc_draft); ("a1", algebra_record); ("u2", undated_record)];
  taxonomy_of := default_categories
|}.

Definition library_with_poems : manager := {|
  metadata := [("c0", calc_draft); ("p3", poems_record); ("a1", algebra_record)];
  taxonomy_of := default_categories
|}.

(** The filters the catalog page sends when nothing is selected. *)
Definition idle_filters : dict string filter_value :=
  [("category", FStr "Todas"); ("type", FStr "Todos"); ("level", FStr "Todos");
   ("language", FNone)].

(** The catalog page's filters with the year slider at its widest. *)
Definition year_filter : string * filter_value := ("year_range", FRange 1900 2024).

(** Counts in which two pairs of categories tie. *)
Definition tied_library : manager := {|
  metadata := [];
  taxonomy_of := {|
    categories := categories default_categories;
    category_counts := Some [
      (VStr "Historia", 2); (VStr "Ciencias", 5); (VStr "Idiomas", 2);
      (VStr "Matemáticas", 5); (VStr "Literatura", 1)
    ]
  |}
|}.

Definition tied_counts : dict pyval Z :=
  match category_counts (taxonomy_of tied_library) with Some c => c | None => [] end.

(** A reference whose record is not in the registry, or whose record names
    an index path that is not on disk. *)
Definition unresolvable (m : manager) (w : world) (r : doc_ref) : Prop :=
  get_document m (ref_hash r) = None \/
  exists doc path,
    get_document m (ref_hash r) = Some doc /\
    Dict.get doc "vectorstore_path" = Some (VStr path) /\
    ~ In path (paths w).

(** An agent over two documents: one that was never in the library, and the
    calculus book, whose index directory is not on disk. *)
Definition tutor : saved_agent := {|
  name := "Tutor de Matemáticas";
  role := "Tutor Personal";
  style := "Balanceado";
  detail_level := "Moderado";
  temperature := 7 # 10;
  max_tokens := 2048;
  context_window := 5;
  docs := [ {| ref_title := VStr "Geometría"; ref_hash := "0000" |};
            {| ref_title := VStr "Calc I"; ref_hash := calc_hash |} ];
  created_at := "2024-05-02T09:30:00.000000"
|}.

Definition world_with_tutor : world := {|
  metadata_file := empty_file;
  categories_file := empty_file;
  saved_agents_file :=
    {| content := Some (Json [("agent_20240502_093000", tutor)]);
       readable := true; writable := true |};
  paths := ["data"; "data/processed_docs"];
  descriptors := [0; 1; 2];
  chroma := open_store;
  as_retriever := fun vs n => Ok {| store := vs; k := n |}
|}.

Definition library_after_calc `{U : Unicode} : manager := self (snd (perform calc_call fresh_state)).

(** A disk on which both stores are corrupt. *)
Definition corrupt_world : world := {|
  metadata_file := {| content := Some Garbled; readable := true; writable := true |};
  categories_file := {| content := Some Garbled; readable := true; writable := true |};
  saved_agents_file := empty_file;
  paths := ["data"];
  descriptors := [0; 1; 2];
  chroma := open_store;
  as_retriever := fun vs n => Ok {| store := vs; k := n |}
|}.

(** ** Further example data *)

(** A draft without a category. *)
Definition uncategorised_draft : document := [
  ("title", VStr "Notas sueltas");
  ("author", VStr "Anónimo");
  ("year", VInt 2019)
].

(** A draft without an author. *)
Definition unsigned_draft : document := [
  ("title", VStr "Notas sueltas");
  ("category", VStr "Ciencias");
  ("year", VInt 2019)
].

Definition algebra_call : call := {|
  at_time := "2024-05-03T08:15:00.000000";
  draft := [("title", VStr "Álgebra Lineal"); ("category", VStr "Matemáticas");
            ("author", VStr "Grossman"); ("year", VInt 2012)];
  index_path := "data/processed_docs/_lgebra Lineal";
  source_path := "data/processed_docs/_lgebra Lineal/original.pdf"
|}.

(** Every directory can be made. *)
Definition makedirs_fine (path : string) : bool := true.

(** The counts of a taxonomy are keyed by strings, each once. *)
Definition string_keyed (counts : dict pyval Z) : Prop :=
  NoDup (Dict.keys counts) /\
  Forall (fun key => exists s, key = VStr s) (Dict.keys counts).

Definition algebra_hash : string :=
  "87a6f0f1cbe4af179171fe6152a76324aee73ea2d450cc2ec96f54828bb974cb".

(** No category that is a string has more records than its count says, and
    the counts table is there. *)
Definition counts_cover_records (st : state) : Prop :=
  category_counts (taxonomy_of (self st)) <> None /\
  forall c : string,
    Z.of_nat (List.length (get_documents_by_category (self st) (VStr c)))
    <= count_of st (VStr c).

(** A record passes every filter that restricts. *)
Definition passes (items : dict string filter_value) (doc : document) : bool :=
  forallb (fun kv => negb (restricts (snd kv)) || field_equals (fst kv) (snd kv) doc)
          items.

(** [l] is [l'] with some elements left out: the order is kept and nothing
    is repeated. *)
Inductive subsequence {A : Type} : list A -> list A -> Prop :=
| subsequence_nil : subsequence [] []
| subsequence_skip (x : A) (l l' : list A) :
    subsequence l l' -> subsequence l (x :: l')
| subsequence_keep (x : A) (l l' : list A) :
    subsequence l l' -> subsequence (x :: l) (x :: l').

(** The form from which the tutor is saved, and a second form. *)
Definition tutor_form : agent_form := {|
  form_name := "Tutor de Matemáticas";
  form_role := "Tutor Personal";
  form_style := "Balanceado";
  form_detail_level := "Moderado";
  form_temperature := 7 # 10;
  form_max_tokens := 2048;
  form_context_window := 5;
  form_vectorstores := [
    {| selected_title := VStr "Calc I"; selected_hash := calc_hash;
       selected_store := {| persist_directory := "data/processed_docs/Calc_I/vectorstore" |};
       selected_retriever :=
         {| store := {| persist_directory := "data/processed_docs/Calc_I/vectorstore" |};
            k := 5 |} |} ]
|}.

Definition mentor_form : agent_form := {|
  form_name := "Mentor";
  form_role := "Mentor";
  form_style := "Casual";
  form_detail_level := "Conciso";
  form_temperature := 3 # 10;
  form_max_tokens := 512;
  form_context_window := 3;
  form_vectorstores := form_vectorstores tutor_form
|}.

(** A disk on which the index directory of the calculus book exists, with
    the tutor saved; and the same disk with a vector store that cannot be
    opened. *)
Definition world_with_index : world := {|
  metadata_file := empty_file;
  categories_file := empty_file;
  saved_agents_file := saved_agents_file world_with_tutor;
  paths := ["data"; "data/processed_docs"; "data/processed_docs/Calc_I/vectorstore"];
  descriptors := [0; 1; 2];
  chroma := open_store;
  as_retriever := fun vs n => Ok {| store := vs; k := n |}
|}.

Definition world_with_broken_index : world := {|
  metadata_file := empty_file;
  categories_file := empty_file;
  saved_agents_file := saved_agents_file world_with_tutor;
  paths := paths world_with_index;
  descriptors := [0; 1; 2];
  chroma := fun _ => Raise OSError;
  as_retriever := fun vs n => Ok {| store := vs; k := n |}
|}.

(** Text as Python has it: a character of several bytes has no ASCII byte. *)
Definition well_formed_text (s : string) : bool :=
  forallb (fun c =>
             match c with
             | String _ EmptyString => true
             | _ => forallb (fun b => 128 <=? b) (bytes c)
             end) (chars s).

(** The ASCII bytes a cleaned file name can hold: letters, digits, and
    [.], [_], [-] and the space. *)
Definition safe_byte (b : Z) : Prop :=
  48 <= b <= 57 \/ 65 <= b <= 90 \/ 97 <= b <= 122 \/
  b = 46 \/ b = 95 \/ b = 45 \/ b = 32.

(** An [isalnum] for the examples: the characters of two bytes in them are
    letters. *)
Definition isalnum_latin (c : string) : bool :=
  match c with
  | String _ (String _ EmptyString) => true
  | _ => false
  end.

(** A transcript of four messages, the oldest without a role. *)
Definition transcript : list document := [
  [("content", VStr "(sin rol)")];
  [("role", VStr "user"); ("content", VStr "¿Qué es un límite?");
   ("timestamp", VStr "2024-05-03T10:20:00")];
  [("role", VStr "assistant"); ("content", VStr "El valor al que se acerca f(x).");
   ("timestamp", VStr "2024-05-03T10:20:05")];
  [("role", VStr "system"); ("content", VStr "fin")]
].

(** The Unicode tables for the texts of the examples, whose letters are those
    of Basic Latin and Latin-1.  No property depends on them.

    [s.lower()]: the Latin-1 capitals U+00C0-U+00DE (all but the
    multiplication sign U+00D7), which UTF-8 writes as the byte 0xC3 followed
    by 0x80-0x9E, go to their small letters. *)
Fixpoint latin1_lower (s : string) : string :=
  match s with
  | EmptyString => EmptyString
  | String c s' =>
      if is_upper c then String (chr (code c + 32)) (latin1_lower s')
      else if code c =? 195 then
        match s' with
        | String d s'' =>
            if (128 <=? code d) && (code d <=? 158) && negb (code d =? 151)
            then String c (String (chr (code d + 32)) (latin1_lower s''))
            else String c (latin1_lower s')
        | EmptyString => String c EmptyString
        end
      else String c (latin1_lower s')
  end.

(** Latin-1 letters are printable, and no text that has one is a numeral. *)
#[export] Instance latin1 : Unicode := {|
  unicode_lower := latin1_lower;
  unicode_repr := ascii_repr;
  unicode_int := fun _ => Raise ValueError
|}.

(** The first of the keys "title", "author" and "year", in the order the
    f-string of [add_document] reads them, that a draft lacks. *)
Definition first_missing (d : document) : option string :=
  find (fun key => match Dict.get d key with None => true | Some _ => false end)
       ["title"; "author"; "year"].

(** A draft with neither title nor year. *)
Definition untitled_draft : document := [
  ("category", VStr "Ciencias");
  ("author", VStr "Anónimo")
].

(** The text has no ASCII digit. *)
Fixpoint no_digit (s : string) : bool :=
  match s with
  | EmptyString => true
  | String c s' => negb (is_digit c) && no_digit s'
  end.



(** The filters the catalog page sends when the category "Matemáticas" is
    selected and the year slider is at its widest: the category comes before
    the year range. *)
Definition mathematics_filters : dict string filter_value :=
  [("category", FStr "Matemáticas"); ("type", FStr "Todos"); ("level", FStr "Todos");
   ("language", FNone); year_filter].


(* ===================================================================== *)
(** * [hashlib.sha256] against its test vectors                            *)
(* ===================================================================== *)

Example sha256_abc :
  Sha256.hexdigest (encode "abc")
  = "ba7816bf8f01cfea414140de5dae2223b00361a396177a9cb410ff61f20015ad".
Proof. vm_compute. reflexivity. Qed.

Example sha256_empty :
  Sha256.hexdigest (encode "")
  = "e3b0c44298fc1c149afbf4c8996fb92427ae41e4649b934ca495991b7852b855".
Proof. vm_compute. reflexivity. Qed.

Example sha256_two_blocks :
  Sha256.hexdigest (repeat 97 100)
  = "2816597888e4a0d3a36b82b83316ab32680eb8f00f8cd3b904d681246d285a0e".
Proof. vm_compute. reflexivity. Qed.

Example sha256_utf8 :
  Sha256.hexdigest (encode "Álgebra_Ñ_1999")
  = "a087fda50321e15aeb3f05e027281c501954c20fa9ed572518328116d5b06e73".
Proof. vm_compute. reflexivity. Qed.

(* ===================================================================== *)
(** * Facts about the built-ins                                            *)
(* ===================================================================== *)

Lemma pyval_eqb_eq (a b : pyval) : pyval_eqb a b = true <-> a = b.
Proof.
  revert b. induction a as [ | n | s | l IH ] using pyval_ind';
    intros [ | n' | s' | l' ]; simpl; try (split; congruence).
  - rewrite Z.eqb_eq. split; congruence.
  - rewrite String.eqb_eq. split; congruence.
  - revert l'. induction IH as [ | x l Hx _ IHl ]; intros [ | y l' ];
      try (split; congruence).
    rewrite andb_true_iff, Hx, IHl. split.
    + intros [-> E]. congruence.
    + intros E. injection E as -> ->. auto.
Qed.

Lemma pyval_eqb_refl (v : pyval) : pyval_eqb v v = true.
Proof. apply pyval_eqb_eq. reflexivity. Qed.

Lemma string_eqb_ok (a b : string) : eqb a b = true <-> a = b.
Proof. apply String.eqb_eq. Qed.

Lemma pyval_eqb_ok (a b : pyval) : eqb a b = true <-> a = b.
Proof. apply pyval_eqb_eq. Qed.

Lemma bind_ok {A B} (r : result A) (k : A -> result B) (b : B) :
  Py.bind r k = Ok b -> exists a, r = Ok a /\ k a = Ok b.
Proof. destruct r as [a | e]; simpl; [ eauto | discriminate ]. Qed.

Lemma filterM_total {A} (p : A -> result bool) (q : A -> bool) (l : list A) :
  (forall x, In x l -> p x = Ok (q x)) -> filterM p l = Ok (filter q l).
Proof.
  induction l as [ | x l IH ]; intros Hp; simpl; [ reflexivity | ].
  rewrite (Hp x (or_introl eq_refl)). simpl.
  rewrite IH by (intros y Hy; apply Hp; right; exact Hy).
  reflexivity.
Qed.


Lemma filterM_raise {A} (p : A -> result bool) (l : list A) (x : A) (e : exn) :
  In x l -> p x = Raise e -> exists e', filterM p l = Raise e'.
Proof.
  induction l as [ | y l IH ]; intros Hin Hx; [ contradiction | ].
  simpl. destruct Hin as [-> | Hin].
  - rewrite Hx. simpl. eauto.
  - destruct (p y) as [b | e1]; simpl; [ | eauto ].
    destruct (IH Hin Hx) as [e' ->]. simpl. eauto.
Qed.

Lemma filterM_In {A} (p : A -> result bool) (l r : list A) (x : A) :
  filterM p l = Ok r -> In x r -> In x l /\ p x = Ok true.
Proof.
  revert r. induction l as [ | y l IH ]; simpl; intros r Hr Hin.
  - injection Hr as <-. contradiction.
  - apply bind_ok in Hr. destruct Hr as [b [Hb Hr]].
    apply bind_ok in Hr. destruct Hr as [r' [Hr' Hr]].
    injection Hr as <-. destruct b.
    + destruct Hin as [<- | Hin]; [ auto | ].
      destruct (IH _ Hr' Hin). auto.
    + destruct (IH _ Hr' Hin). auto.
Qed.

(* ===================================================================== *)
(** * Facts about dictionaries                                             *)
(* ===================================================================== *)

Section DictFacts.

Context {K V : Type} `{Eqb K}.
Hypothesis eqb_ok : forall a b : K, eqb a b = true <-> a = b.

Lemma eqb_same (k : K) : eqb k k = true.
Proof. apply eqb_ok. reflexivity. Qed.

Lemma eqb_other (a b : K) : a <> b -> eqb a b = false.
Proof.
  intros Hne. destruct (eqb a b) eqn:E; [ | reflexivity ].
  apply eqb_ok in E. contradiction.
Qed.

Lemma get_set_same (d : list (K * V)) (k : K) (v : V) :
  Dict.get (Dict.set d k v) k = Some v.
Proof.
  induction d as [ | [k' v'] d IH ]; simpl.
  - rewrite eqb_same. reflexivity.
  - destruct (eqb k' k) eqn:E; simpl; rewrite E; [ reflexivity | exact IH ].
Qed.

Lemma get_set_other (d : list (K * V)) (k k' : K) (v : V) :
  k <> k' -> Dict.get (Dict.set d k v) k' = Dict.get d k'.
Proof.
  intros Hne. induction d as [ | [k0 v0] d IH ]; simpl.
  - rewrite eqb_other by exact Hne. reflexivity.
  - destruct (eqb k0 k) eqn:E; simpl.
    + apply eqb_ok in E. subst k0. rewrite eqb_other by exact Hne. reflexivity.
    + destruct (eqb k0 k'); [ reflexivity | exact IH ].
Qed.

Lemma set_absent (d : list (K * V)) (k : K) (v : V) :
  ~ In k (Dict.keys d) -> Dict.set d k v = d ++ [(k, v)].
Proof.
  induction d as [ | [k' v'] d IH ]; simpl; intros Hn; [ reflexivity | ].
  rewrite eqb_other by tauto. rewrite IH by tauto. reflexivity.
Qed.

(** [dict(items)] keeps a list of pairs with distinct keys as it is. *)
Lemma update_distinct (items d : list (K * V)) :
  NoDup (Dict.keys (d ++ items)) -> Dict.update d items = d ++ items.
Proof.
  revert d. induction items as [ | [k v] items IH ]; intros d Hnd; simpl.
  - rewrite app_nil_r. reflexivity.
  - unfold Dict.update in *. simpl.
    assert (Hk : ~ In k (Dict.keys d)).
    { unfold Dict.keys in *. rewrite map_app in Hnd. simpl in Hnd.
      apply NoDup_remove_2 in Hnd. intros Hin. apply Hnd.
      apply in_or_app. left. exact Hin. }
    rewrite set_absent by exact Hk.
    rewrite IH; rewrite <- app_assoc; [ reflexivity | exact Hnd ].
Qed.

Lemma of_items_distinct (items : list (K * V)) :
  NoDup (Dict.keys items) -> Dict.of_items items = items.
Proof. intros Hnd. apply (update_distinct items []). exact Hnd. Qed.

End DictFacts.

(* ===================================================================== *)
(** * What [add_document] does, case by case                               *)
(* ===================================================================== *)

Ltac run_add :=
  unfold add_document, reraise, bindM, lift, read_self, write_self, on_disk,
    ret, getitem; simpl.

(** A draft with the four keys the method reads, a hashable category and a
    counts table present: the call returns the id. *)
Lemma add_document_ok `{U : Unicode} now d vp op st t a y c counts :
  Dict.get d "title" = Some t ->
  Dict.get d "author" = Some a ->
  Dict.get d "year" = Some y ->
  Dict.get d "category" = Some c ->
  hashable c = true ->
  category_counts (taxonomy_of (self st)) = Some counts ->
  add_document now d vp op st =
    let h := compute_hash t a y in
    let md := Dict.set (metadata (self st)) h (stored_record now d h vp op) in
    let tx := counted (taxonomy_of (self st)) counts c in
    (Ok h,
     {| self := {| metadata := md; taxonomy_of := tx |};
        disk := _save_categories tx (_save_metadata md (disk st)) |}).
Proof.
  intros Ht Ha Hy Hc Hh Hcounts. run_add.
  rewrite Ht, Ha, Hy. simpl. rewrite Hc. simpl. rewrite Hcounts. simpl.
  rewrite Hh. simpl. reflexivity.
Qed.

(** The call returns an id only in that case. *)
Lemma add_document_inv `{U : Unicode} now d vp op st h st' :
  add_document now d vp op st = (Ok h, st') ->
  exists t a y c counts,
    Dict.get d "title" = Some t /\
    Dict.get d "author" = Some a /\
    Dict.get d "year" = Some y /\
    Dict.get d "category" = Some c /\
    hashable c = true /\
    category_counts (taxonomy_of (self st)) = Some counts.
Proof.
  run_add.
  destruct (Dict.get d "title") as [t | ] eqn:Ht; simpl; [ | discriminate ].
  destruct (Dict.get d "author") as [a | ] eqn:Ha; simpl; [ | discriminate ].
  destruct (Dict.get d "year") as [y | ] eqn:Hy; simpl; [ | discriminate ].
  destruct (Dict.get d "category") as [c | ] eqn:Hc; simpl; [ | discriminate ].
  destruct (category_counts (taxonomy_of (self st))) as [counts | ] eqn:Hcounts;
    simpl; [ | discriminate ].
  destruct (hashable c) eqn:Hh; simpl; [ | discriminate ].
  intros _. exists t, a, y, c, counts. auto 10.
Qed.

(** A call that raises leaves the counts as they were. *)
Lemma add_document_raise_counts `{U : Unicode} now d vp op st e st' :
  add_document now d vp op st = (Raise e, st') ->
  category_counts (taxonomy_of (self st')) = category_counts (taxonomy_of (self st)).
Proof.
  run_add.
  destruct (Dict.get d "title") as [t | ]; simpl; [ | intros [= _ <-]; reflexivity ].
  destruct (Dict.get d "author") as [a | ]; simpl; [ | intros [= _ <-]; reflexivity ].
  destruct (Dict.get d "year") as [y | ]; simpl; [ | intros [= _ <-]; reflexivity ].
  destruct (Dict.get d "category") as [c | ]; simpl; [ | intros [= _ <-]; reflexivity ].
  destruct (category_counts (taxonomy_of (self st))) as [counts | ] eqn:Hcounts;
    simpl; [ | intros [= _ <-]; simpl; congruence ].
  destruct (hashable c); simpl; [ discriminate | intros [= _ <-]; simpl; congruence ].
Qed.

Arguments compute_hash : simpl never.

(** The three ways a call can go: it stops at a missing key before anything
    is touched; it stores and saves the record and then stops at the
    category; or it goes through. *)
Lemma add_document_cases `{U : Unicode} now d vp op st :
  (exists key,
      In key ["title"; "author"; "year"] /\ Dict.get d key = None /\
      add_document now d vp op st = (Raise (Error_adding_document (KeyError key)), st)) \/
  (exists t a y e,
      Dict.get d "title" = Some t /\ Dict.get d "author" = Some a /\
      Dict.get d "year" = Some y /\
      (Dict.get d "category" = None /\ e = KeyError "category" \/
       (exists c, Dict.get d "category" = Some c) /\
         category_counts (taxonomy_of (self st)) = None /\
         e = KeyError "category_counts" \/
       (exists c, Dict.get d "category" = Some c /\ hashable c = false) /\
         category_counts (taxonomy_of (self st)) <> None /\ e = TypeError) /\
      let h := compute_hash t a y in
      let md := Dict.set (metadata (self st)) h (stored_record now d h vp op) in
      add_document now d vp op st =
        (Raise (Error_adding_document e),
         {| self := {| metadata := md; taxonomy_of := taxonomy_of (self st) |};
            disk := _save_metadata md (disk st) |})) \/
  (exists t a y c counts,
      Dict.get d "title" = Some t /\ Dict.get d "author" = Some a /\
      Dict.get d "year" = Some y /\ Dict.get d "category" = Some c /\
      hashable c = true /\ category_counts (taxonomy_of (self st)) = Some counts).
Proof.
  destruct (Dict.get d "title") as [t | ] eqn:Ht.
  2:{ left. exists "title". split; [ simpl; tauto | ]. split; [ exact Ht | ].
      run_add. rewrite Ht. simpl. destruct st; reflexivity. }
  destruct (Dict.get d "author") as [a | ] eqn:Ha.
  2:{ left. exists "author". split; [ simpl; tauto | ]. split; [ exact Ha | ].
      run_add. rewrite Ht, Ha. simpl. destruct st; reflexivity. }
  destruct (Dict.get d "year") as [y | ] eqn:Hy.
  2:{ left. exists "year". split; [ simpl; tauto | ]. split; [ exact Hy | ].
      run_add. rewrite Ht, Ha, Hy. simpl. destruct st; reflexivity. }
  destruct (Dict.get d "category") as [c | ] eqn:Hc.
  2:{ right. left. exists t, a, y, (KeyError "category").
      repeat split; try reflexivity; [ left; split; reflexivity | ].
      run_add. rewrite Ht, Ha, Hy. simpl. rewrite Hc. reflexivity. }
  destruct (category_counts (taxonomy_of (self st))) as [counts | ] eqn:Hcounts.
  2:{ right. left. exists t, a, y, (KeyError "category_counts").
      repeat split; try reflexivity; [ right; left; eauto | ].
      run_add. rewrite Ht, Ha, Hy. simpl. rewrite Hc. simpl. rewrite Hcounts.
      reflexivity. }
  destruct (hashable c) eqn:Hh.
  - right. right. exists t, a, y, c, counts. auto 10.
  - right. left. exists t, a, y, TypeError.
    repeat split; try reflexivity.
    + right. right. split; [ eauto | ]. split; [ congruence | reflexivity ].
    + run_add. rewrite Ht, Ha, Hy. simpl. rewrite Hc. simpl. rewrite Hcounts.
      simpl. rewrite Hh. reflexivity.
Qed.

Lemma stored_record_system now d h vp op :
  Dict.get (stored_record now d h vp op) "hash" = Some (VStr h) /\
  Dict.get (stored_record now d h vp op) "vectorstore_path" = Some (VStr vp) /\
  Dict.get (stored_record now d h vp op) "original_path" = Some (VStr op) /\
  Dict.get (stored_record now d h vp op) "processed_date" = Some (VStr now).
Proof.
  unfold stored_record, Dict.update. simpl.
  repeat split;
    repeat first
      [ rewrite (get_set_same string_eqb_ok)
      | rewrite (get_set_other string_eqb_ok) by discriminate ];
    reflexivity.
Qed.

Lemma stored_record_draft now d h vp op k :
  ~ In k system_keys ->
  Dict.get (stored_record now d h vp op) k = Dict.get d k.
Proof.
  intros Hk. unfold stored_record, Dict.update. simpl.
  repeat rewrite (get_set_other string_eqb_ok)
    by (intros <-; apply Hk; simpl; tauto).
  reflexivity.
Qed.

Example calc_hash_computed :
  compute_hash (VStr "Calc I") (VStr "Rivas") (VInt 2020) = calc_hash.
Proof. vm_compute. reflexivity. Qed.

(* ===================================================================== *)
(** * C1: a failed save inside [add_document]                              *)
(* ===================================================================== *)

(** C1, as the code has it.  When [metadata.json] cannot be written,
    [_save_metadata] swallows the failure: for a draft the method accepts,
    [add_document] still returns the id, the registry in memory holds the new
    record, and the file is what it was before the call. *)
Theorem add_document_swallows_save_failure `{U : Unicode} now d vp op st t a y c counts :
  writable (metadata_file (disk st)) = false ->
  Dict.get d "title" = Some t ->
  Dict.get d "author" = Some a ->
  Dict.get d "year" = Some y ->
  Dict.get d "category" = Some c ->
  hashable c = true ->
  category_counts (taxonomy_of (self st)) = Some counts ->
  exists st',
    add_document now d vp op st = (Ok (compute_hash t a y), st') /\
    metadata (self st') =
      Dict.set (metadata (self st)) (compute_hash t a y)
               (stored_record now d (compute_hash t a y) vp op) /\
    get_document (self st') (compute_hash t a y)
      = Some (stored_record now d (compute_hash t a y) vp op) /\
    metadata_file (disk st') = metadata_file (disk st).
Proof.
  intros Hw Ht Ha Hy Hc Hh Hcounts.
  rewrite (add_document_ok now d vp op st t a y c counts) by assumption.
  eexists. split; [ reflexivity | ]. simpl. split; [ reflexivity | ]. split.
  - unfold get_document. simpl. apply (get_set_same string_eqb_ok).
  - unfold _save_metadata, write_json. rewrite Hw.
    unfold _save_categories. destruct (write_json _ _); reflexivity.
Qed.

Lemma add_document_swallows_save_failure_witness :
  exists st',
    add_document (at_time calc_call) calc_draft (index_path calc_call)
                 (source_path calc_call) locked_state
      = (Ok (compute_hash (VStr "Calc I") (VStr "Rivas") (VInt 2020)), st') /\
    metadata (self st') =
      Dict.set (metadata (self locked_state))
               (compute_hash (VStr "Calc I") (VStr "Rivas") (VInt 2020))
               (stored_record (at_time calc_call) calc_draft
                  (compute_hash (VStr "Calc I") (VStr "Rivas") (VInt 2020))
                  (index_path calc_call) (source_path calc_call)) /\
    get_document (self st') (compute_hash (VStr "Calc I") (VStr "Rivas") (VInt 2020))
      = Some (stored_record (at_time calc_call) calc_draft
                (compute_hash (VStr "Calc I") (VStr "Rivas") (VInt 2020))
                (index_path calc_call) (source_path calc_call)) /\
    metadata_file (disk st') = metadata_file (disk locked_state).
Proof.
  apply (add_document_swallows_save_failure
           (at_time calc_call) calc_draft (index_path calc_call)
           (source_path calc_call) locked_state
           (VStr "Calc I") (VStr "Rivas") (VInt 2020) (VStr "Matemáticas") []);
    reflexivity.
Defined.

(** C1 as stated fails: on a disk whose [metadata.json] is read-only the
    write fails, yet the call returns the id instead of an error, the
    registry in memory has the record it did not have before, and the file
    still holds the empty registry. *)
Lemma add_document_save_failure_not_reported :
  let st := locked_state in
  let out := perform calc_call st in
  write_json (metadata_file (disk st)) (metadata (self (snd out))) = Raise OSError /\
  fst out = Ok calc_hash /\
  get_document (self st) calc_hash = None /\
  get_document (self (snd out)) calc_hash
    = Some (stored_record (at_time calc_call) calc_draft calc_hash
              (index_path calc_call) (source_path calc_call)) /\
  content (metadata_file (disk (snd out))) = Some (Json []).
Proof. vm_compute. repeat split; reflexivity. Qed.

(* ===================================================================== *)
(** * C2: the document id                                                  *)
(* ===================================================================== *)

Lemma append_length (s t : string) :
  String.length (s +++ t) = (String.length s + String.length t)%nat.
Proof. induction s as [ | c s IH ]; simpl; [ reflexivity | rewrite IH; reflexivity ]. Qed.

Lemma append_cancel_l (p s t : string) : p +++ s = p +++ t -> s = t.
Proof. induction p as [ | c p IH ]; simpl; [ auto | intros [= E]; auto ]. Qed.

Lemma append_cancel_r (s t q : string) : s +++ q = t +++ q -> s = t.
Proof.
  revert t. induction s as [ | c s IH ]; intros [ | c' t ] E; simpl in E.
  - reflexivity.
  - apply (f_equal String.length) in E. simpl in E. rewrite append_length in E. lia.
  - apply (f_equal String.length) in E. simpl in E. rewrite append_length in E. lia.
  - injection E as -> E. f_equal. apply IH. exact E.
Qed.

Lemma code_inj (c c' : ascii) : code c = code c' -> c = c'.
Proof.
  unfold code. intros E. apply N2Z.inj in E.
  rewrite <- (ascii_N_embedding c), <- (ascii_N_embedding c'), E. reflexivity.
Qed.

Lemma encode_inj (s t : string) : encode s = encode t -> s = t.
Proof.
  unfold encode. revert t. induction s as [ | c s IH ]; intros [ | c' t ]; simpl;
    try discriminate; [ reflexivity | ].
  intros [= Ec E]. f_equal; [ apply code_inj; exact Ec | apply IH; exact E ].
Qed.

Lemma to_int_proper (n : Z) :
  Z.to_int n <> Decimal.Pos Decimal.Nil /\ Z.to_int n <> Decimal.Neg Decimal.Nil.
Proof.
  assert (E : Z.to_int n = Decimal.norm (Z.to_int n)).
  { rewrite <- DecimalZ.to_of, DecimalZ.of_to. reflexivity. }
  split; intros Hn; rewrite Hn in E; discriminate.
Qed.

Lemma str_of_int_inj (n n' : Z) : str_of_int n = str_of_int n' -> n = n'.
Proof.
  unfold str_of_int. intros E. apply DecimalZ.to_int_inj.
  destruct (to_int_proper n) as [Hp Hn], (to_int_proper n') as [Hp' Hn'].
  pose proof (NilZero.isi _ Hp Hn) as I. rewrite E in I.
  rewrite (NilZero.isi _ Hp' Hn') in I. congruence.
Qed.

(** X24.  The id that [add_document] returns is the SHA-256 hex digest of the
    UTF-8 bytes of the title, the author and the year rendered and joined by
    an underscore, whatever the registry, the clock and the paths are: two
    drafts whose three fields render to the same joined text get the same id.
    Changing the title alone, the author alone (strings) or the year alone
    (an integer) changes the bytes that are hashed. *)
Theorem document_id_depends_on_joined_triple `{U : Unicode} now d vp op st h st' :
  add_document now d vp op st = (Ok h, st') ->
  exists t a y,
    Dict.get d "title" = Some t /\
    Dict.get d "author" = Some a /\
    Dict.get d "year" = Some y /\
    h = Sha256.hexdigest (encode (py_str t +++ "_" +++ py_str a +++ "_" +++ py_str y)) /\
    (forall now2 d2 vp2 op2 st2 h2 st2' t2 a2 y2,
        add_document now2 d2 vp2 op2 st2 = (Ok h2, st2') ->
        Dict.get d2 "title" = Some t2 ->
        Dict.get d2 "author" = Some a2 ->
        Dict.get d2 "year" = Some y2 ->
        hash_input t2 a2 y2 = hash_input t a y ->
        h2 = h) /\
    (forall s s', s <> s' ->
        encode (hash_input (VStr s) a y) <> encode (hash_input (VStr s') a y)) /\
    (forall s s', s <> s' ->
        encode (hash_input t (VStr s) y) <> encode (hash_input t (VStr s') y)) /\
    (forall n n', n <> n' ->
        encode (hash_input t a (VInt n)) <> encode (hash_input t a (VInt n'))).
Proof.
  intros Hadd.
  destruct (add_document_inv _ _ _ _ _ _ _ Hadd)
    as (t & a & y & c & counts & Ht & Ha & Hy & Hc & Hh & Hcounts).
  rewrite (add_document_ok now d vp op st t a y c counts) in Hadd by assumption.
  injection Hadd as Hid _.
  exists t, a, y. repeat split; try assumption.
  - symmetry. exact Hid.
  - intros now2 d2 vp2 op2 st2 h2 st2' t2 a2 y2 Hadd2 Ht2 Ha2 Hy2 Hsame.
    destruct (add_document_inv _ _ _ _ _ _ _ Hadd2)
      as (t3 & a3 & y3 & c2 & counts2 & Ht3 & Ha3 & Hy3 & Hc2 & Hh2 & Hcounts2).
    rewrite (add_document_ok now2 d2 vp2 op2 st2 t3 a3 y3 c2 counts2) in Hadd2
      by assumption.
    injection Hadd2 as Hid2 _.
    assert (t3 = t2) by congruence. assert (a3 = a2) by congruence.
    assert (y3 = y2) by congruence. subst t3 a3 y3.
    rewrite <- Hid, <- Hid2. unfold compute_hash. rewrite Hsame. reflexivity.
  - intros s s' Hne E. apply encode_inj in E. unfold hash_input in E. simpl in E.
    apply append_cancel_r in E. contradiction.
  - intros s s' Hne E. apply encode_inj in E. unfold hash_input in E. simpl in E.
    apply append_cancel_l in E. injection E as E.
    apply append_cancel_r in E. contradiction.
  - intros n n' Hne E. apply encode_inj in E. unfold hash_input in E. simpl in E.
    apply append_cancel_l in E. injection E as E.
    apply append_cancel_l in E. injection E as E.
    apply str_of_int_inj in E. contradiction.
Qed.

Lemma document_id_depends_on_joined_triple_witness :
  perform calc_call fresh_state = (Ok calc_hash, snd (perform calc_call fresh_state)) /\
  calc_hash = Sha256.hexdigest (encode "Calc I_Rivas_2020").
Proof.
  assert (H : add_document (at_time calc_call) calc_draft (index_path calc_call)
                (source_path calc_call) fresh_state
              = (Ok calc_hash, snd (perform calc_call fresh_state)))
    by (vm_compute; reflexivity).
  split; [ exact H | ].
  destruct (document_id_depends_on_joined_triple _ _ _ _ _ _ _ H)
    as (t & a & y & Ht & Ha & Hy & Hid & _).
  vm_compute in Ht. injection Ht as <-.
  vm_compute in Ha. injection Ha as <-.
  vm_compute in Hy. injection Hy as <-.
  rewrite Hid. reflexivity.
Defined.

(** C2.  The id is not unique per triple, although the code means it to be
    (its comment reads "Generar hash único") and joins the fields with an
    underscore to keep them apart: the underscore inside a field is not told
    apart from the separator.  The title "a_b" by the author "c" and the
    title "a" by the author "b_c", both of 2020, are different triples with
    the same id, and inserting the second replaces the record of the first:
    the registry holds one document. *)
Theorem different_triples_same_id :
  let now := "2024-05-01T10:00:00" in
  let first := add_document now draft_ab_c "v1" "o1" fresh_state in
  let second := add_document now draft_a_bc "v2" "o2" (snd first) in
  let id := "89716df09134512fe3c45427c916261423eea04e0ff0aefd6e726e9f7617b720" in
  (Dict.get draft_ab_c "title", Dict.get draft_ab_c "author", Dict.get draft_ab_c "year")
  = (Some (VStr "a_b"), Some (VStr "c"), Some (VInt 2020)) /\
  (Dict.get draft_a_bc "title", Dict.get draft_a_bc "author", Dict.get draft_a_bc "year")
  = (Some (VStr "a"), Some (VStr "b_c"), Some (VInt 2020)) /\
  fst first = Ok id /\
  fst second = Ok id /\
  get_document (self (snd first)) id
  = Some (stored_record now draft_ab_c id "v1" "o1") /\
  get_document (self (snd second)) id
  = Some (stored_record now draft_a_bc id "v2" "o2") /\
  get_total_documents (self (snd second)) = 1.
Proof.
  vm_compute. repeat split; reflexivity.
Qed.

(** A year given as the text "2020" renders as the integer 2020 does, and
    gets the same id. *)
Example text_year_same_id :
  fst (add_document "2024-05-01T10:00:00" draft_ab_c_text_year "v" "o" fresh_state)
  = fst (add_document "2024-05-01T10:00:00" draft_ab_c "v" "o" fresh_state).
Proof. vm_compute. reflexivity. Qed.

(* ===================================================================== *)
(** * C3: insert, then get                                                 *)
(* ===================================================================== *)

(** C3.  After [add_document] has returned an id, [get_document] on that id
    returns the draft with the four system fields set on it: [hash] is the id,
    [vectorstore_path] and [original_path] are the two paths, [processed_date]
    is the clock reading; every other key has the value the draft gave it, and
    no further key is present. *)
Theorem get_after_add_document `{U : Unicode} now d vp op st h st' :
  add_document now d vp op st = (Ok h, st') ->
  exists record,
    get_document (self st') h = Some record /\
    record = Dict.update d [("hash", VStr h); ("vectorstore_path", VStr vp);
                            ("original_path", VStr op); ("processed_date", VStr now)] /\
    Dict.get record "hash" = Some (VStr h) /\
    Dict.get record "vectorstore_path" = Some (VStr vp) /\
    Dict.get record "original_path" = Some (VStr op) /\
    Dict.get record "processed_date" = Some (VStr now) /\
    (forall key, ~ In key system_keys -> Dict.get record key = Dict.get d key).
Proof.
  intros Hadd.
  destruct (add_document_inv _ _ _ _ _ _ _ Hadd)
    as (t & a & y & c & counts & Ht & Ha & Hy & Hc & Hh & Hcounts).
  rewrite (add_document_ok now d vp op st t a y c counts) in Hadd by assumption.
  injection Hadd as Hid Hst. subst st'. simpl in Hid. rewrite Hid.
  exists (stored_record now d h vp op).
  split; [ unfold get_document; simpl; apply (get_set_same string_eqb_ok) | ].
  split; [ reflexivity | ].
  destruct (stored_record_system now d h vp op) as (H1 & H2 & H3 & H4).
  repeat split; try assumption.
  intros key Hkey. apply stored_record_draft. exact Hkey.
Qed.

Lemma get_after_add_document_witness :
  get_document (self (snd (perform calc_call fresh_state))) calc_hash
  = Some (calc_draft ++
          [("hash", VStr calc_hash);
           ("vectorstore_path", VStr "data/processed_docs/Calc_I/vectorstore");
           ("original_path", VStr "data/processed_docs/Calc_I/original.pdf");
           ("processed_date", VStr "2024-05-01T10:00:00.000000")]).
Proof.
  assert (H : add_document (at_time calc_call) calc_draft (index_path calc_call)
                (source_path calc_call) fresh_state
              = (Ok calc_hash, snd (perform calc_call fresh_state)))
    by (vm_compute; reflexivity).
  destruct (get_after_add_document _ _ _ _ _ _ _ H) as (record & Hget & Hrec & _).
  rewrite Hget, Hrec. reflexivity.
Defined.

(* ===================================================================== *)
(** * C4 and C9: [search_documents]                                        *)
(* ===================================================================== *)

Lemma apply_filters_app `{U : Unicode} results items1 items2 :
  apply_filters results (items1 ++ items2)
  = let? r := apply_filters results items1 in apply_filters r items2.
Proof.
  revert results. induction items1 as [ | kv items1 IH ]; intros results; simpl.
  - reflexivity.
  - destruct (apply_filter results kv) as [r | e]; simpl; [ apply IH | reflexivity ].
Qed.

Lemma apply_filter_In `{U : Unicode} results kv found doc :
  apply_filter results kv = Ok found -> In doc found -> In doc results.
Proof.
  destruct kv as [key value]. unfold apply_filter.
  destruct (restricts value); [ | intros [= <-]; auto ].
  destruct (String.eqb key "year_range").
  - intros Hf Hin. exact (proj1 (filterM_In _ _ _ _ Hf Hin)).
  - intros [= <-] Hin. apply filter_In in Hin. tauto.
Qed.

Lemma apply_filters_In `{U : Unicode} items results found doc :
  apply_filters results items = Ok found -> In doc found -> In doc results.
Proof.
  revert results. induction items as [ | kv items IH ]; intros results; simpl.
  - intros [= <-]. auto.
  - intros Hf Hin. apply bind_ok in Hf. destruct Hf as [r [Hr Hf]].
    eapply apply_filter_In; [ exact Hr | ]. eapply IH; eassumption.
Qed.

Lemma apply_filters_idle `{U : Unicode} items results :
  (forall key value, In (key, value) items -> restricts value = false) ->
  apply_filters results items = Ok results.
Proof.
  induction items as [ | [key value] items IH ]; intros Hidle; simpl.
  - reflexivity.
  - rewrite (Hidle key value) by (left; reflexivity). simpl.
    apply IH. intros k v Hin. apply (Hidle k v). right. exact Hin.
Qed.

(** What the query step returns is part of what it was given. *)
Lemma search_documents_In `{U : Unicode} m query items found doc :
  search_documents m query (Some items) = Ok found ->
  In doc found ->
  exists survivors,
    apply_filters (Dict.values (metadata m)) items = Ok survivors /\ In doc survivors.
Proof.
  unfold search_documents. cbv zeta. intros Hs Hin.
  apply bind_ok in Hs. destruct Hs as [survivors [Hf Hq]].
  exists survivors. split; [ exact Hf | ].
  destruct query as [ [ | c q ] | ].
  - injection Hq as <-. exact Hin.
  - exact (proj1 (filterM_In _ _ _ _ Hq Hin)).
  - injection Hq as <-. exact Hin.
Qed.




Lemma no_digit_lstrip s : no_digit s = true -> no_digit (lstrip s) = true.
Proof.
  induction s as [ | c s IH ]; simpl; [ reflexivity | ].
  intros Hs. destruct (is_space c); [ | exact Hs ].
  apply andb_true_iff in Hs. apply IH. tauto.
Qed.

Lemma digits_need_a_digit s acc count :
  match s with
  | EmptyString => True
  | String c _ => is_digit c = false
  end ->
  digits s false acc count = None.
Proof.
  destruct s as [ | c s ]; simpl; [ reflexivity | ].
  intros ->. destruct (Ascii.eqb c "_"); reflexivity.
Qed.

Lemma no_digit_head s :
  no_digit s = true ->
  match s with
  | EmptyString => True
  | String c _ => is_digit c = false
  end.
Proof.
  destruct s as [ | c s ]; simpl; [ trivial | ].
  intros Hs. apply andb_true_iff in Hs. apply negb_true_iff. tauto.
Qed.

(** [int] raises [ValueError] on an ASCII text without a digit. *)
Lemma int_of_str_no_digit `{U : Unicode} s :
  is_ascii s = true -> no_digit s = true -> int_of_str s = Raise ValueError.
Proof.
  intros Hascii Hs. unfold int_of_str. rewrite Hascii. unfold ascii_int.
  apply no_digit_lstrip in Hs.
  destruct (lstrip s) as [ | c r ]; [ reflexivity | ].
  assert (Hr : digits r false 0 0 = None).
  { apply digits_need_a_digit. apply no_digit_head.
    simpl in Hs. apply andb_true_iff in Hs. tauto. }
  assert (Hcr : digits (String c r) false 0 0 = None).
  { apply digits_need_a_digit. exact (no_digit_head _ Hs). }
  destruct c as [[] [] [] [] [] [] [] []];
    first [ rewrite Hr; reflexivity | rewrite Hcr; reflexivity ].
Qed.

(** C9.  Let the filters hold a year range [(lo, hi)], and let [survivors] be
    the records that the filters before it let through; the other records
    are not looked at.
    - If [int()] raises on the year of a survivor, the call raises; so it does
      when that year is a string that is not a number, as is every ASCII
      text without a digit.
    - A record without a year is given the year 0; when [lo] is positive no
      such record is in any result.
    - If [int()] succeeds on the year of every survivor, the year filter, as
      the last filter and without a query, returns the survivors whose year
      is within the bounds, bounds included. *)
Theorem search_documents_year_range `{U : Unicode} m pre lo hi post survivors :
  apply_filters (Dict.values (metadata m)) pre = Ok survivors ->
  let year_of doc := py_int (Dict.get_default doc "year" (VInt 0)) in
  let filters := Some (pre ++ ("year_range", FRange lo hi) :: post) in
  (forall query doc e,
      In doc survivors -> year_of doc = Raise e ->
      exists e', search_documents m query filters = Raise e') /\
  (forall query doc s,
      In doc survivors -> Dict.get doc "year" = Some (VStr s) ->
      int_of_str s = Raise ValueError \/ (is_ascii s = true /\ no_digit s = true) ->
      exists e', search_documents m query filters = Raise e') /\
  (forall doc, Dict.get doc "year" = None -> year_of doc = Ok 0) /\
  (forall query doc found,
      Dict.get doc "year" = None -> 0 < lo ->
      search_documents m query filters = Ok found -> ~ In doc found) /\
  ((forall doc, In doc survivors -> exists y, year_of doc = Ok y) ->
   search_documents m None (Some (pre ++ [("year_range", FRange lo hi)]))
   = Ok (filter (fun doc =>
                   match year_of doc with
                   | Ok y => (lo <=? y) && (y <=? hi)
                   | Raise _ => false
                   end) survivors)).
Proof.
  intros Hpre year_of filters.
  assert (Hraise : forall query doc e,
             In doc survivors -> year_of doc = Raise e ->
             exists e', search_documents m query filters = Raise e').
  { intros query doc e Hin Hyear. unfold search_documents, filters. cbv zeta.
    rewrite apply_filters_app, Hpre. simpl.
    destruct (filterM_raise (in_year_range (FRange lo hi)) survivors doc e Hin)
      as [e' He'].
    { unfold in_year_range. fold (year_of doc). rewrite Hyear. reflexivity. }
    rewrite He'. simpl. eauto. }
  assert (Hzero : forall doc, Dict.get doc "year" = None -> year_of doc = Ok 0).
  { intros doc Hnone. unfold year_of, Dict.get_default. rewrite Hnone. reflexivity. }
  repeat split.
  - exact Hraise.
  - intros query doc s Hin Hyear Hs. apply (Hraise query doc ValueError Hin).
    unfold year_of, Dict.get_default. rewrite Hyear.
    destruct Hs as [Hs | [Hascii Hs]];
      [ exact Hs | exact (int_of_str_no_digit s Hascii Hs) ].
  - exact Hzero.
  - intros query doc found Hnone Hlo Hsearch Hin.
    destruct (search_documents_In _ _ _ _ _ Hsearch Hin) as [r [Hr Hdoc]].
    rewrite apply_filters_app, Hpre in Hr. simpl in Hr.
    apply bind_ok in Hr. destruct Hr as [r1 [Hr1 Hr]].
    pose proof (apply_filters_In _ _ _ _ Hr Hdoc) as Hdoc1.
    destruct (filterM_In _ _ _ _ Hr1 Hdoc1) as [_ Hpass].
    unfold in_year_range in Hpass. fold (year_of doc) in Hpass.
    rewrite (Hzero doc Hnone) in Hpass. simpl in Hpass.
    injection Hpass as Hpass. apply andb_true_iff in Hpass.
    destruct Hpass as [Hpass _]. apply Z.leb_le in Hpass. lia.
  - intros Hall. unfold search_documents. cbv zeta.
    rewrite apply_filters_app, Hpre. simpl.
    rewrite (filterM_total _
               (fun doc => match year_of doc with
                           | Ok y => (lo <=? y) && (y <=? hi)
                           | Raise _ => false
                           end)).
    + reflexivity.
    + intros doc Hin. destruct (Hall doc Hin) as [y Hy].
      unfold in_year_range. fold (year_of doc). rewrite Hy. reflexivity.
Qed.

Lemma search_documents_year_range_witness :
  (exists e, search_documents library_with_poems (Some "poemas")
               (Some (idle_filters ++ [year_filter])) = Raise e) /\
  search_documents library None (Some (idle_filters ++ [year_filter]))
  = Ok [calc_draft; algebra_record].
Proof.
  split.
  - assert (Hpre : apply_filters (Dict.values (metadata library_with_poems)) idle_filters
                   = Ok [calc_draft; poems_record; algebra_record]) by reflexivity.
    destruct (search_documents_year_range library_with_poems idle_filters 1900 2024 []
                _ Hpre) as (_ & Htext & _).
    apply (Htext (Some "poemas") poems_record "s.f.").
    + simpl. tauto.
    + reflexivity.
    + right. split; reflexivity.
  - assert (Hpre : apply_filters (Dict.values (metadata library)) idle_filters
                   = Ok [calc_draft; algebra_record; undated_record]) by reflexivity.
    destruct (search_documents_year_range library idle_filters 1900 2024 []
                _ Hpre) as (_ & _ & _ & _ & Htotal).
    unfold year_filter. rewrite Htotal.
    + vm_compute. reflexivity.
    + intros doc Hin. simpl in Hin.
      repeat (destruct Hin as [<- | Hin]; [ eexists; vm_compute; reflexivity | ]).
      contradiction.
Defined.

(** The exception is the [ValueError] of [int('s.f.')]. *)
Example search_documents_year_range_raises :
  search_documents library_with_poems None (Some (idle_filters ++ [year_filter]))
  = Raise ValueError.
Proof. vm_compute. reflexivity. Qed.

(** C9 as stated fails: a record whose year is a string that is not a
    number does not make every search with a year range raise.  With the
    filters of the catalog page, where the category comes before the year
    range, the book of poems (year "s.f.", category "Literatura") is removed
    by the category "Matemáticas" before any year is converted, and the
    search returns. *)
Lemma search_documents_year_range_not_reached :
  In poems_record (Dict.values (metadata library_with_poems)) /\
  Dict.get poems_record "year" = Some (VStr "s.f.") /\
  int_of_str "s.f." = Raise ValueError /\
  In ("year_range", FRange 1900 2024) mathematics_filters /\
  search_documents library_with_poems None (Some mathematics_filters)
  = Ok [calc_draft; algebra_record].
Proof.
  split; [ simpl; tauto | ].
  split; [ reflexivity | ].
  split; [ reflexivity | ].
  split; [ simpl; tauto | ].
  vm_compute. reflexivity.
Qed.

(* ===================================================================== *)
(** * C5 and C10: category counts                                          *)
(* ===================================================================== *)

Lemma get_default_set_same (counts : dict pyval Z) (c : pyval) (n default : Z) :
  Dict.get_default (Dict.set counts c n) c default = n.
Proof. unfold Dict.get_default. rewrite (get_set_same pyval_eqb_ok). reflexivity. Qed.

Lemma get_default_set_other (counts : dict pyval Z) (c c' : pyval) (n default : Z) :
  c <> c' ->
  Dict.get_default (Dict.set counts c n) c' default = Dict.get_default counts c' default.
Proof.
  intros Hne. unfold Dict.get_default.
  rewrite (get_set_other pyval_eqb_ok) by exact Hne. reflexivity.
Qed.

(** One call: the count of [c] goes up by one when the call returns an id and
    the draft is filed under [c], and is unchanged otherwise. *)
Lemma perform_count `{U : Unicode} call st c :
  count_of (snd (perform call st)) c
  = count_of st c
    + (if is_ok (fst (perform call st)) && field_is (draft call) "category" c
       then 1 else 0).
Proof.
  unfold perform.
  destruct (add_document (at_time call) (draft call) (index_path call)
              (source_path call) st) as [[h | e] st'] eqn:Hadd; simpl.
  - destruct (add_document_inv _ _ _ _ _ _ _ Hadd)
      as (t & a & y & cat & counts & Ht & Ha & Hy & Hc & Hh & Hcounts).
    rewrite (add_document_ok _ _ _ _ _ t a y cat counts) in Hadd by assumption.
    injection Hadd as _ <-.
    unfold count_of, field_is. simpl. rewrite Hcounts, Hc.
    destruct (pyval_eqb cat c) eqn:E.
    + apply pyval_eqb_eq in E. subst cat. apply get_default_set_same.
    + rewrite get_default_set_other; [ lia | ].
      intros ->. rewrite pyval_eqb_refl in E. discriminate.
  - unfold count_of. rewrite (add_document_raise_counts _ _ _ _ _ _ _ Hadd). lia.
Qed.

Lemma run_calls_count `{U : Unicode} calls st c :
  count_of (snd (run_calls calls st)) c
  = count_of st c + successes c calls (fst (run_calls calls st)).
Proof.
  revert st. induction calls as [ | call calls IH ]; intros st; simpl.
  - lia.
  - pose proof (perform_count call st c) as Hone.
    destruct (perform call st) as [r st1]. simpl in Hone.
    specialize (IH st1). destruct (run_calls calls st1) as [rs st2].
    simpl in *. lia.
Qed.











Lemma set_present_length {V} (d : dict string V) (key : string) (v : V) :
  Dict.get d key <> None -> List.length (Dict.set d key v) = List.length d.
Proof.
  induction d as [ | [k' v'] d IH ]; simpl; [ congruence | ].
  destruct (eqb k' key); simpl; [ reflexivity | ].
  intros Hin. rewrite IH by exact Hin. reflexivity.
Qed.

(** C10.  After any sequence of calls, [category_counts[c]] is its value
    before plus the number of calls that returned an id with a draft filed
    under [c].  A call that returns an id already in the registry keeps the
    number of records and still adds one to the count.  So the count can
    exceed the number of records of the category: inserting the same draft
    twice into an empty library gives a count of two for one record. *)
Theorem category_count_counts_calls `{U : Unicode} :
  (forall calls st c,
      count_of (snd (run_calls calls st)) c
      = count_of st c + successes c calls (fst (run_calls calls st))) /\
  (forall call st h st' c,
      perform call st = (Ok h, st') ->
      get_document (self st) h <> None ->
      Dict.get (draft call) "category" = Some c ->
      get_total_documents (self st') = get_total_documents (self st) /\
      count_of st' c = count_of st c + 1) /\
  (exists calls c,
      let out := run_calls calls fresh_state in
      count_of fresh_state c = 0 /\
      Z.of_nat (List.length (get_documents_by_category (self (snd out)) c))
      < count_of (snd out) c).
Proof.
  split; [ exact run_calls_count | ]. split.
  - intros call st h st' c Hone Hthere Hc.
    pose proof (perform_count call st c) as Hn. rewrite Hone in Hn. simpl in Hn.
    unfold field_is in Hn. rewrite Hc, pyval_eqb_refl in Hn.
    split; [ | exact Hn ].
    unfold perform in Hone.
    destruct (add_document_inv _ _ _ _ _ _ _ Hone)
      as (t & a & y & cat & counts & Ht & Ha & Hy & Hcat & Hh & Hcounts).
    rewrite (add_document_ok _ _ _ _ _ t a y cat counts) in Hone by assumption.
    injection Hone as Hid <-. unfold get_total_documents. simpl.
    rewrite set_present_length; [ reflexivity | ]. rewrite Hid. exact Hthere.
  - exists [calc_call; calc_call], (VStr "Matemáticas").
    vm_compute. split; reflexivity.
Qed.

Lemma category_count_counts_calls_witness :
  let st1 := snd (perform calc_call fresh_state) in
  let st2 := snd (perform calc_call st1) in
  get_total_documents (self st2) = get_total_documents (self st1) /\
  count_of st2 (VStr "Matemáticas") = count_of st1 (VStr "Matemáticas") + 1.
Proof.
  intros st1 st2.
  apply (proj1 (proj2 category_count_counts_calls) calc_call st1 calc_hash st2).
  - vm_compute. reflexivity.
  - vm_compute. discriminate.
  - reflexivity.
Defined.

(* ===================================================================== *)
(** * C6: [get_popular_categories]                                         *)
(* ===================================================================== *)

Section Ranking.

Context {K : Type}.

Lemma insert_desc_perm (x : K * Z) (l : list (K * Z)) :
  Permutation (x :: l) (insert_desc x l).
Proof.
  induction l as [ | y l IH ]; simpl; [ reflexivity | ].
  destruct (snd x <? snd y); [ | reflexivity ].
  rewrite perm_swap. apply perm_skip. exact IH.
Qed.

Lemma sorted_desc_perm (l : list (K * Z)) : Permutation l (sorted_desc l).
Proof.
  induction l as [ | x l IH ]; simpl; [ reflexivity | ].
  rewrite <- insert_desc_perm. apply perm_skip. exact IH.
Qed.

Lemma insert_desc_sorted (x : K * Z) (l : list (K * Z)) :
  StronglySorted higher l -> StronglySorted higher (insert_desc x l).
Proof.
  induction 1 as [ | y l Hs IH Hy ]; simpl.
  - constructor; constructor.
  - destruct (snd x <? snd y) eqn:E.
    + constructor; [ exact IH | ].
      rewrite <- insert_desc_perm. constructor; [ | exact Hy ].
      unfold higher. apply Z.ltb_lt in E. lia.
    + apply Z.ltb_ge in E. constructor; [ constructor; assumption | ].
      constructor; [ exact E | ].
      eapply Forall_impl; [ | exact Hy ].
      unfold higher. intros z Hz. lia.
Qed.

Lemma sorted_desc_sorted (l : list (K * Z)) : StronglySorted higher (sorted_desc l).
Proof.
  induction l as [ | x l IH ]; simpl; [ constructor | ].
  apply insert_desc_sorted. exact IH.
Qed.

(** Stability: the items of one count are in the order they had. *)
Lemma insert_desc_stable (n : Z) (x : K * Z) (l : list (K * Z)) :
  filter (counts_as n) (insert_desc x l) = filter (counts_as n) (x :: l).
Proof.
  induction l as [ | y l IH ]; [ reflexivity | ].
  cbn [insert_desc]. destruct (snd x <? snd y) eqn:E; [ | reflexivity ].
  cbn [filter] in *. rewrite IH. apply Z.ltb_lt in E.
  unfold counts_as.
  destruct (snd x =? n) eqn:Ex, (snd y =? n) eqn:Ey; try reflexivity.
  apply Z.eqb_eq in Ex, Ey. lia.
Qed.

Lemma sorted_desc_stable (n : Z) (l : list (K * Z)) :
  filter (counts_as n) (sorted_desc l) = filter (counts_as n) l.
Proof.
  induction l as [ | x l IH ]; [ reflexivity | ].
  cbn [sorted_desc fold_right]. fold (sorted_desc l).
  rewrite insert_desc_stable. cbn [filter]. rewrite IH. reflexivity.
Qed.

Lemma firstn_NoDup {A} (n : nat) (l : list A) : NoDup l -> NoDup (firstn n l).
Proof.
  revert n. induction l as [ | x l IH ]; intros [ | n ] Hnd; simpl;
    try constructor.
  - inversion Hnd as [ | ? ? Hx Hl ]. subst.
    intros Hin. apply Hx. revert Hin. clear.
    revert n. induction l as [ | y l IH ]; intros [ | n ]; simpl; try tauto.
    intros [-> | Hin]; [ tauto | right; exact (IH n Hin) ].
  - inversion Hnd. subst. apply IH. assumption.
Qed.

End Ranking.

(** C6, as the code has it.  [get_popular_categories] takes no limit: it
    returns the first eight entries of the counts ranked by count, highest
    first, entries of equal count in the order of the counts table.  The
    ranking is a permutation of the table, sorted, and stable. *)
Theorem get_popular_categories_top_eight m :
  let counts :=
    match category_counts (taxonomy_of m) with Some c => c | None => [] end in
  NoDup (Dict.keys counts) ->
  exists ranked,
    get_popular_categories m = firstn 8 ranked /\
    Permutation counts ranked /\
    StronglySorted (fun a b => snd b <= snd a) ranked /\
    (forall n,
        filter (fun kv => snd kv =? n) ranked = filter (fun kv => snd kv =? n) counts) /\
    (List.length (get_popular_categories m) <= 8)%nat.
Proof.
  intros counts Hnd. exists (sorted_desc counts).
  assert (Hresult : get_popular_categories m = firstn 8 (sorted_desc counts)).
  { unfold get_popular_categories. fold counts.
    apply (of_items_distinct pyval_eqb_ok).
    unfold Dict.keys. rewrite <- firstn_map. apply firstn_NoDup.
    eapply Permutation_NoDup; [ | exact Hnd ].
    apply Permutation_map. apply sorted_desc_perm. }
  split; [ exact Hresult | ].
  split; [ apply sorted_desc_perm | ].
  split; [ apply sorted_desc_sorted | ].
  split; [ intros n; apply (sorted_desc_stable n counts) | ].
  rewrite Hresult. apply firstn_le_length.
Qed.

Lemma get_popular_categories_top_eight_witness :
  exists ranked,
    get_popular_categories tied_library = firstn 8 ranked /\
    Permutation tied_counts ranked /\
    StronglySorted (fun a b => snd b <= snd a) ranked /\
    (forall n,
        filter (fun kv => snd kv =? n) ranked
        = filter (fun kv => snd kv =? n) tied_counts) /\
    (List.length (get_popular_categories tied_library) <= 8)%nat.
Proof.
  apply (get_popular_categories_top_eight tied_library).
  repeat constructor; simpl; intuition discriminate.
Defined.

Example get_popular_categories_ties_keep_order :
  get_popular_categories tied_library
  = [ (VStr "Ciencias", 5); (VStr "Matemáticas", 5); (VStr "Historia", 2);
      (VStr "Idiomas", 2); (VStr "Literatura", 1) ].
Proof. reflexivity. Qed.

(** C6 as stated fails: there is no limit to request.  A caller who wants
    the single most popular category still gets the five counted ones. *)
Lemma get_popular_categories_no_limit :
  let requested := 1%nat in
  ~ (List.length (get_popular_categories tied_library) <= requested)%nat.
Proof. vm_compute. lia. Qed.

(* ===================================================================== *)
(** * C7: resolving the documents of a saved agent                         *)
(* ===================================================================== *)

Lemma existsb_absent (s : string) (l : list string) :
  ~ In s l -> existsb (String.eqb s) l = false.
Proof.
  intros Hn. destruct (existsb (String.eqb s) l) eqn:E; [ | reflexivity ].
  apply existsb_exists in E. destruct E as [x [Hin Hx]].
  apply String.eqb_eq in Hx. subst x. contradiction.
Qed.

Lemma unresolvable_skipped m w agent r :
  unresolvable m w r -> resolve_ref m w agent r = Ok None.
Proof.
  unfold resolve_ref. intros [Hnone | (doc & path & Hdoc & Hpath & Hgone)].
  - rewrite Hnone. reflexivity.
  - rewrite Hdoc. destruct doc as [ | kv doc ]; [ discriminate | ].
    unfold usable, Dict.get_default. rewrite Hpath. simpl.
    rewrite existsb_absent by exact Hgone. reflexivity.
Qed.

Lemma resolve_refs_skip m w agent before r after :
  resolve_ref m w agent r = Ok None ->
  resolve_refs m w agent (before ++ r :: after)
  = resolve_refs m w agent (before ++ after).
Proof.
  intros Hskip. induction before as [ | r0 before IH ]; simpl.
  - rewrite Hskip. simpl. destruct (resolve_refs m w agent after); reflexivity.
  - rewrite IH. reflexivity.
Qed.

Lemma resolve_refs_none m w agent refs :
  (forall r, In r refs -> resolve_ref m w agent r = Ok None) ->
  resolve_refs m w agent refs = Ok [].
Proof.
  induction refs as [ | r refs IH ]; intros Hall; simpl; [ reflexivity | ].
  rewrite (Hall r) by (left; reflexivity). simpl.
  rewrite IH by (intros r' Hin; apply Hall; right; exact Hin). reflexivity.
Qed.

(** C7.  For an agent that is in the registry: a reference that cannot be
    resolved is passed over without an exception, the result being what it
    is for the references without it; and when no reference can be resolved
    the configuration is returned, not [None], with an empty list of
    vector stores. *)
Theorem load_agent_config_skips_unresolvable agent_id m w agent :
  Dict.get (load_saved_agents w) agent_id = Some agent ->
  (forall r, unresolvable m w r -> resolve_ref m w agent r = Ok None) /\
  (forall before r after,
      docs agent = before ++ r :: after ->
      unresolvable m w r ->
      resolve_refs m w agent (docs agent) = resolve_refs m w agent (before ++ after)) /\
  ((forall r, In r (docs agent) -> unresolvable m w r) ->
   load_agent_config agent_id m w = Some {| saved := agent; vectorstores := [] |}).
Proof.
  intros Hagent. split; [ | split ].
  - intros r. apply unresolvable_skipped.
  - intros before r after -> Hr. apply resolve_refs_skip.
    apply unresolvable_skipped. exact Hr.
  - intros Hall. unfold load_agent_config. rewrite Hagent.
    rewrite resolve_refs_none; [ reflexivity | ].
    intros r Hin. apply unresolvable_skipped. apply Hall. exact Hin.
Qed.

Lemma load_agent_config_skips_unresolvable_witness :
  load_agent_config "agent_20240502_093000" library_after_calc world_with_tutor
  = Some {| saved := tutor; vectorstores := [] |}.
Proof.
  refine (proj2 (proj2 (load_agent_config_skips_unresolvable
                          "agent_20240502_093000" library_after_calc world_with_tutor
                          tutor _)) _).
  - reflexivity.
  - intros r Hin. simpl in Hin. destruct Hin as [<- | [<- | []]].
    + left. vm_compute. reflexivity.
    + right. eexists. eexists. split; [ vm_compute; reflexivity | ].
      split; [ reflexivity | ].
      simpl. intuition discriminate.
Defined.

(** When the index directory is on disk the reference is resolved. *)
Example load_agent_config_resolves `{U : Unicode} :
  let w := {| metadata_file := empty_file; categories_file := empty_file;
              saved_agents_file := saved_agents_file world_with_tutor;
              paths := ["data/processed_docs/Calc_I/vectorstore"];
              descriptors := [0; 1; 2];
              chroma := open_store;
              as_retriever := fun vs n => Ok {| store := vs; k := n |} |} in
  option_map (fun c => map title (vectorstores c))
    (load_agent_config "agent_20240502_093000" library_after_calc w)
  = Some [VStr "Calc I"].
Proof. vm_compute. reflexivity. Qed.

(* ===================================================================== *)
(** * C8: loading the stores                                               *)
(* ===================================================================== *)

(** C8.  When [categories.json] is absent, cannot be read or does not parse,
    [_load_categories] returns the default taxonomy and has attempted to
    save it: the file holds the defaults afterwards if it can be written, and
    is untouched, without an exception, if it cannot.  [_load_metadata] does
    the same with the empty mapping.  On every other disk the loaders return
    what the file holds; no disk makes them raise. *)
Theorem loaders_fall_back_to_defaults w :
  (content (categories_file w) = None \/
   content (categories_file w) = Some Garbled \/
   readable (categories_file w) = false ->
   _load_categories w = (default_categories, _save_categories default_categories w) /\
   (writable (categories_file w) = true ->
    content (categories_file (snd (_load_categories w)))
    = Some (Json default_categories)) /\
   (writable (categories_file w) = false -> snd (_load_categories w) = w)) /\
  (content (metadata_file w) = None \/
   content (metadata_file w) = Some Garbled \/
   readable (metadata_file w) = false ->
   _load_metadata w = ([], _save_metadata [] w) /\
   (writable (metadata_file w) = true ->
    content (metadata_file (snd (_load_metadata w))) = Some (Json [])) /\
   (writable (metadata_file w) = false -> snd (_load_metadata w) = w)) /\
  (forall t,
      content (categories_file w) = Some (Json t) ->
      readable (categories_file w) = true ->
      _load_categories w = (reload_taxonomy t, w)) /\
  (forall registry,
      content (metadata_file w) = Some (Json registry) ->
      readable (metadata_file w) = true ->
      _load_metadata w = (registry, w)).
Proof.
  split; [ | split; [ | split ] ].
  - intros Hbad.
    assert (Hload : _load_categories w
                    = (default_categories, _save_categories default_categories w)).
    { unfold _load_categories, file_exists, read_json.
      destruct Hbad as [-> | [-> | Hr]]; [ reflexivity | | ].
      - destruct (readable (categories_file w)); reflexivity.
      - rewrite Hr. destruct (content (categories_file w)); reflexivity. }
    rewrite Hload. split; [ reflexivity | ].
    unfold _save_categories, write_json. simpl.
    split; intros ->; reflexivity.
  - intros Hbad.
    assert (Hload : _load_metadata w = ([], _save_metadata [] w)).
    { unfold _load_metadata, file_exists, read_json.
      destruct Hbad as [-> | [-> | Hr]]; [ reflexivity | | ].
      - destruct (readable (metadata_file w)); reflexivity.
      - rewrite Hr. destruct (content (metadata_file w)); reflexivity. }
    rewrite Hload. split; [ reflexivity | ].
    unfold _save_metadata, write_json. simpl.
    split; intros ->; reflexivity.
  - intros t Hc Hr. unfold _load_categories, file_exists, read_json.
    rewrite Hc, Hr. reflexivity.
  - intros registry Hc Hr. unfold _load_metadata, file_exists, read_json.
    rewrite Hc, Hr. reflexivity.
Qed.

Lemma loaders_fall_back_to_defaults_witness :
  fst (_load_categories corrupt_world) = default_categories /\
  content (categories_file (snd (_load_categories corrupt_world)))
  = Some (Json default_categories) /\
  fst (_load_metadata corrupt_world) = [] /\
  content (metadata_file (snd (_load_metadata corrupt_world))) = Some (Json []).
Proof.
  destruct (loaders_fall_back_to_defaults corrupt_world) as (Hc & Hm & _).
  destruct Hc as (Hload & Hsaved & _); [ right; left; reflexivity | ].
  destruct Hm as (Hload' & Hsaved' & _); [ right; left; reflexivity | ].
  split; [ rewrite Hload; reflexivity | ].
  split; [ apply Hsaved; reflexivity | ].
  split; [ rewrite Hload'; reflexivity | ].
  apply Hsaved'; reflexivity.
Defined.

(* ===================================================================== *)
(** * Further properties of [add_document]                                 *)
(* ===================================================================== *)

(** X1.  A draft that lacks the title, the author or the year makes
    [add_document] raise the [KeyError] of the first of these three keys, in
    the order title, author, year, that is missing, wrapped as "Error adding
    document"; the registry, the counts and the disk are as before the
    call. *)
Theorem add_document_missing_field `{U : Unicode} now d vp op st :
  Dict.get d "title" = None \/ Dict.get d "author" = None \/ Dict.get d "year" = None ->
  exists key,
    first_missing d = Some key /\
    Dict.get d key = None /\
    add_document now d vp op st = (Raise (Error_adding_document (KeyError key)), st).
Proof.
  intros Hmissing. unfold first_missing. simpl find.
  destruct (Dict.get d "title") as [t | ] eqn:Ht.
  2:{ exists "title". split; [ reflexivity | ]. split; [ exact Ht | ].
      run_add. rewrite Ht. simpl. destruct st; reflexivity. }
  destruct (Dict.get d "author") as [a | ] eqn:Ha.
  2:{ exists "author". split; [ reflexivity | ]. split; [ exact Ha | ].
      run_add. rewrite Ht, Ha. simpl. destruct st; reflexivity. }
  destruct (Dict.get d "year") as [y | ] eqn:Hy.
  2:{ exists "year". split; [ reflexivity | ]. split; [ exact Hy | ].
      run_add. rewrite Ht, Ha, Hy. simpl. destruct st; reflexivity. }
  destruct Hmissing as [H | [H | H]]; discriminate.
Qed.

Lemma add_document_missing_field_witness :
  add_document "2024-05-01T10:00:00" untitled_draft "v" "o" fresh_state
  = (Raise (Error_adding_document (KeyError "title")), fresh_state) /\
  add_document "2024-05-01T10:00:00" unsigned_draft "v" "o" fresh_state
  = (Raise (Error_adding_document (KeyError "author")), fresh_state).
Proof.
  split.
  - destruct (add_document_missing_field "2024-05-01T10:00:00" untitled_draft "v" "o"
                fresh_state) as (key & Hfirst & _ & Hraise);
      [ left; reflexivity | ].
    injection Hfirst as <-. exact Hraise.
  - destruct (add_document_missing_field "2024-05-01T10:00:00" unsigned_draft "v" "o"
                fresh_state) as (key & Hfirst & _ & Hraise);
      [ right; left; reflexivity | ].
    injection Hfirst as <-. exact Hraise.
Defined.

(** X2.  A draft that has a title, an author and a year but no category makes
    [add_document] raise, but only after the record was put in the registry
    and saved: after the failed call [get_document] finds the record,
    [metadata.json] holds it when the file can be written, and the counts are
    unchanged. *)
Theorem add_document_without_category `{U : Unicode} now d vp op st t a y :
  Dict.get d "title" = Some t ->
  Dict.get d "author" = Some a ->
  Dict.get d "year" = Some y ->
  Dict.get d "category" = None ->
  let h := compute_hash t a y in
  exists st',
    add_document now d vp op st
      = (Raise (Error_adding_document (KeyError "category")), st') /\
    get_document (self st') h = Some (stored_record now d h vp op) /\
    taxonomy_of (self st') = taxonomy_of (self st) /\
    categories_file (disk st') = categories_file (disk st) /\
    (writable (metadata_file (disk st)) = true ->
     content (metadata_file (disk st')) = Some (Json (metadata (self st')))).
Proof.
  intros Ht Ha Hy Hc h.
  destruct (add_document_cases now d vp op st)
    as [(key & Hkey & Hnone & _)
       | [(t' & a' & y' & e & Ht' & Ha' & Hy' & He & Hrun)
         | (t' & a' & y' & c & counts & _ & _ & _ & Hc' & _)]].
  - simpl in Hkey. destruct Hkey as [<- | [<- | [<- | []]]]; congruence.
  - assert (t' = t) by congruence. assert (a' = a) by congruence.
    assert (y' = y) by congruence. subst t' a' y'.
    assert (e = KeyError "category").
    { destruct He as [[_ ->] | [[[c Hc'] _] | [(c & Hc' & _) _]]];
        [ reflexivity | congruence | congruence ]. }
    subst e. cbv zeta in Hrun. fold h in Hrun. rewrite Hrun.
    eexists. split; [ reflexivity | ]. simpl.
    split; [ unfold get_document; simpl; apply (get_set_same string_eqb_ok) | ].
    split; [ reflexivity | ].
    unfold _save_metadata, write_json.
    destruct (writable (metadata_file (disk st))); simpl;
      split; try reflexivity; intros; try discriminate; reflexivity.
  - congruence.
Qed.

Lemma add_document_without_category_witness :
  let out := add_document "2024-05-01T10:00:00" uncategorised_draft "v" "o" fresh_state in
  fst out = Raise (Error_adding_document (KeyError "category")) /\
  get_total_documents (self (snd out)) = 1 /\
  content (metadata_file (disk (snd out))) = Some (Json (metadata (self (snd out)))).
Proof.
  intros out.
  destruct (add_document_without_category "2024-05-01T10:00:00" uncategorised_draft
              "v" "o" fresh_state (VStr "Notas sueltas") (VStr "Anónimo") (VInt 2019)
              eq_refl eq_refl eq_refl eq_refl)
    as (st' & Hrun & _ & _ & _ & Hsaved).
  unfold out. rewrite Hrun. simpl.
  split; [ reflexivity | ].
  split; [ | apply Hsaved; reflexivity ].
  apply (f_equal snd) in Hrun. simpl in Hrun. rewrite <- Hrun.
  vm_compute. reflexivity.
Defined.

Section MoreDictFacts.

Context {K V : Type} `{Eqb K}.
Hypothesis eqb_ok : forall a b : K, eqb a b = true <-> a = b.

Lemma get_absent (d : list (K * V)) (k : K) :
  Dict.get d k = None <-> ~ In k (Dict.keys d).
Proof.
  induction d as [ | [k' v'] d IH ]; simpl; [ tauto | ].
  destruct (eqb k' k) eqn:E.
  - apply eqb_ok in E. split; [ discriminate | tauto ].
  - rewrite IH. split; [ | tauto ].
    intros Hn [-> | Hin]; [ | tauto ].
    rewrite (eqb_same eqb_ok) in E. discriminate.
Qed.

Lemma get_present (d : list (K * V)) (k : K) (v : V) :
  Dict.get d k = Some v -> In k (Dict.keys d).
Proof.
  induction d as [ | [k' v'] d IH ]; simpl; [ discriminate | ].
  destruct (eqb k' k) eqn:E.
  - apply eqb_ok in E. auto.
  - intros Hget. right. exact (IH Hget).
Qed.

Lemma keys_set_present (d : list (K * V)) (k : K) (v : V) :
  In k (Dict.keys d) -> Dict.keys (Dict.set d k v) = Dict.keys d.
Proof.
  induction d as [ | [k' v'] d IH ]; simpl; [ tauto | ].
  intros Hin. destruct (eqb k' k) eqn:E; simpl; [ reflexivity | ].
  f_equal. apply IH. destruct Hin as [-> | Hin]; [ | exact Hin ].
  rewrite (eqb_same eqb_ok) in E. discriminate.
Qed.

Lemma values_set_absent (d : list (K * V)) (k : K) (v : V) :
  Dict.get d k = None -> Dict.values (Dict.set d k v) = Dict.values d ++ [v].
Proof.
  intros Hnone. rewrite (set_absent eqb_ok) by (apply get_absent; exact Hnone).
  unfold Dict.values. rewrite map_app. reflexivity.
Qed.

Lemma set_value_In (d : list (K * V)) (k : K) (v : V) :
  In v (Dict.values (Dict.set d k v)).
Proof.
  induction d as [ | [k' v'] d IH ]; simpl; [ tauto | ].
  destruct (eqb k' k); simpl; tauto.
Qed.

(** Storing a value adds at most one value that passes a test. *)
Lemma set_filter_length (p : V -> bool) (d : list (K * V)) (k : K) (v : V) :
  (List.length (filter p (Dict.values (Dict.set d k v)))
   <= List.length (filter p (Dict.values d)) + (if p v then 1 else 0))%nat.
Proof.
  induction d as [ | [k' v'] d IH ]; simpl.
  - destruct (p v); simpl; lia.
  - destruct (eqb k' k); simpl.
    + destruct (p v), (p v'); simpl; lia.
    + destruct (p v'); simpl; lia.
Qed.

Lemma get_delete_same (d : list (K * V)) (k : K) :
  Dict.get (Dict.delete d k) k = None.
Proof.
  induction d as [ | [k' v'] d IH ]; simpl; [ reflexivity | ].
  destruct (eqb k' k) eqn:E; simpl; [ exact IH | ]. rewrite E. exact IH.
Qed.

Lemma get_delete_other (d : list (K * V)) (k k' : K) :
  k <> k' -> Dict.get (Dict.delete d k) k' = Dict.get d k'.
Proof.
  intros Hne. induction d as [ | [k0 v0] d IH ]; simpl; [ reflexivity | ].
  destruct (eqb k0 k) eqn:E; simpl.
  - apply eqb_ok in E. subst k0. rewrite (eqb_other eqb_ok) by exact Hne. exact IH.
  - destruct (eqb k0 k'); [ reflexivity | exact IH ].
Qed.

Lemma delete_absent (d : list (K * V)) (k : K) :
  Dict.get d k = None -> Dict.delete d k = d.
Proof.
  induction d as [ | [k' v'] d IH ]; simpl; [ reflexivity | ].
  destruct (eqb k' k); [ discriminate | ].
  intros Hnone. rewrite IH by exact Hnone. reflexivity.
Qed.

Lemma delete_set_absent (d : list (K * V)) (k : K) (v : V) :
  Dict.get d k = None -> Dict.delete (Dict.set d k v) k = d.
Proof.
  induction d as [ | [k' v'] d IH ]; simpl.
  - rewrite (eqb_same eqb_ok). reflexivity.
  - destruct (eqb k' k) eqn:E; [ discriminate | ].
    intros Hnone. simpl. rewrite E. rewrite IH by exact Hnone. reflexivity.
Qed.

Lemma set_present_same_length (d : list (K * V)) (k : K) (v : V) :
  Dict.get d k <> None -> List.length (Dict.set d k v) = List.length d.
Proof.
  induction d as [ | [k' v'] d IH ]; simpl; [ congruence | ].
  destruct (eqb k' k); simpl; [ reflexivity | ].
  intros Hin. rewrite IH by exact Hin. reflexivity.
Qed.

End MoreDictFacts.

(** X3.  An insertion that returns an id touches no other record and leaves
    the category tree as it was; when the id is new the record goes to the
    end of the registry, which has one record more. *)
Theorem add_document_keeps_other_records `{U : Unicode} now d vp op st h st' :
  add_document now d vp op st = (Ok h, st') ->
  (forall other, other <> h ->
      get_document (self st') other = get_document (self st) other) /\
  categories (taxonomy_of (self st')) = categories (taxonomy_of (self st)) /\
  (get_document (self st) h = None ->
   Dict.values (metadata (self st'))
   = Dict.values (metadata (self st)) ++ [stored_record now d h vp op] /\
   get_total_documents (self st') = get_total_documents (self st) + 1).
Proof.
  intros Hadd.
  destruct (add_document_inv _ _ _ _ _ _ _ Hadd)
    as (t & a & y & c & counts & Ht & Ha & Hy & Hc & Hh & Hcounts).
  rewrite (add_document_ok now d vp op st t a y c counts) in Hadd by assumption.
  injection Hadd as Hid <-. simpl in Hid. rewrite Hid. simpl.
  split; [ | split ].
  - intros other Hne. unfold get_document. simpl.
    apply (get_set_other string_eqb_ok). congruence.
  - reflexivity.
  - unfold get_document, get_total_documents. intros Hnew.
    rewrite (values_set_absent string_eqb_ok) by exact Hnew.
    split; [ reflexivity | ].
    rewrite (set_absent string_eqb_ok)
      by (apply (get_absent string_eqb_ok); exact Hnew).
    cbn [metadata]. rewrite length_app. simpl. lia.
Qed.

Lemma add_document_keeps_other_records_witness :
  let st1 := snd (perform calc_call fresh_state) in
  let st2 := snd (perform algebra_call st1) in
  get_document (self st2) calc_hash = get_document (self st1) calc_hash /\
  get_total_documents (self st2) = get_total_documents (self st1) + 1.
Proof.
  intros st1 st2.
  assert (Hadd : add_document (at_time algebra_call) (draft algebra_call)
                   (index_path algebra_call) (source_path algebra_call) st1
                 = (Ok algebra_hash, st2)).
  2:{ destruct (add_document_keeps_other_records _ _ _ _ _ _ _ Hadd)
        as (Hother & _ & Hnew).
      split; [ apply Hother; discriminate | ].
      apply Hnew. vm_compute. reflexivity. }
  vm_compute. reflexivity.
Defined.

Lemma stored_record_category now d h vp op c :
  field_is (stored_record now d h vp op) "category" c = field_is d "category" c.
Proof.
  unfold field_is. rewrite stored_record_draft; [ reflexivity | ].
  simpl. intuition discriminate.
Qed.

(** X4.  After an insertion that returned an id, the stored record is among
    the documents of the draft's category. *)
Theorem add_document_files_under_category `{U : Unicode} now d vp op st h st' c :
  add_document now d vp op st = (Ok h, st') ->
  Dict.get d "category" = Some c ->
  In (stored_record now d h vp op) (get_documents_by_category (self st') c).
Proof.
  intros Hadd Hc.
  destruct (add_document_inv _ _ _ _ _ _ _ Hadd)
    as (t & a & y & c' & counts & Ht & Ha & Hy & Hc' & Hh & Hcounts).
  rewrite (add_document_ok now d vp op st t a y c' counts) in Hadd by assumption.
  injection Hadd as Hid <-. simpl in Hid. rewrite Hid.
  unfold get_documents_by_category. cbn [self metadata].
  apply filter_In. split; [ apply set_value_In | ].
  rewrite stored_record_category. unfold field_is. rewrite Hc. apply pyval_eqb_refl.
Qed.

Lemma add_document_files_under_category_witness :
  In (stored_record (at_time calc_call) calc_draft calc_hash
        (index_path calc_call) (source_path calc_call))
     (get_documents_by_category (self (snd (perform calc_call fresh_state)))
        (VStr "Matemáticas")).
Proof.
  apply (add_document_files_under_category
           (at_time calc_call) calc_draft (index_path calc_call) (source_path calc_call)
           fresh_state calc_hash (snd (perform calc_call fresh_state))).
  - vm_compute. reflexivity.
  - reflexivity.
Defined.

Lemma reload_string_keyed (counts : dict pyval Z) :
  string_keyed counts ->
  Dict.of_items (map (fun kv => (json_key (fst kv), snd kv)) counts) = counts.
Proof.
  intros [Hnd Hstr].
  assert (Hid : map (fun kv : pyval * Z => (json_key (fst kv), snd kv)) counts = counts).
  { clear Hnd. induction counts as [ | [key n] counts IH ]; [ reflexivity | ].
    simpl in *. inversion Hstr as [ | ? ? [s Hs] Hrest ]. subst.
    rewrite IH by exact Hrest. reflexivity. }
  rewrite Hid. apply (of_items_distinct pyval_eqb_ok). exact Hnd.
Qed.

Lemma string_keyed_set (counts : dict pyval Z) (c : string) (n : Z) :
  string_keyed counts -> string_keyed (Dict.set counts (VStr c) n).
Proof.
  intros [Hnd Hstr].
  destruct (Dict.get counts (VStr c)) as [old | ] eqn:Hget.
  - assert (Hin : In (VStr c) (Dict.keys counts))
      by (apply (get_present pyval_eqb_ok) with old; exact Hget).
    unfold string_keyed. rewrite (keys_set_present pyval_eqb_ok) by exact Hin. auto.
  - unfold string_keyed.
    rewrite (set_absent pyval_eqb_ok) by (apply (get_absent pyval_eqb_ok); exact Hget).
    unfold Dict.keys in *. rewrite map_app. simpl. split.
    + apply NoDup_app; [ exact Hnd | repeat constructor; simpl; tauto | ].
      intros x Hx [<- | []]. apply (get_absent pyval_eqb_ok) in Hget. contradiction.
    + apply Forall_app. split; [ exact Hstr | ]. repeat constructor. eauto.
Qed.

(** X5.  What an insertion saved is what a restart loads.  After
    [add_document] has returned an id for a draft whose category is a string,
    on a disk whose two store files can be written and read and with counts
    keyed by strings, a new [DocumentManager] built on that disk has the
    registry and the taxonomy that the running one has. *)
Theorem restart_after_add_document `{U : Unicode} makedirs now d vp op st h st' c counts :
  add_document now d vp op st = (Ok h, st') ->
  Dict.get d "category" = Some (VStr c) ->
  category_counts (taxonomy_of (self st)) = Some counts ->
  string_keyed counts ->
  writable (metadata_file (disk st)) = true ->
  readable (metadata_file (disk st)) = true ->
  writable (categories_file (disk st)) = true ->
  readable (categories_file (disk st)) = true ->
  makedirs "data" = true ->
  makedirs "data/processed_docs" = true ->
  fst (__init__ makedirs (disk st')) = Ok (self st').
Proof.
  intros Hadd Hc Hcounts Hkeys Hwm Hrm Hwc Hrc Hd1 Hd2.
  destruct (add_document_inv _ _ _ _ _ _ _ Hadd)
    as (t & a & y & c' & counts' & Ht & Ha & Hy & Hc' & Hh & Hcounts').
  assert (c' = VStr c) by congruence. assert (counts' = counts) by congruence.
  subst c' counts'.
  rewrite (add_document_ok now d vp op st t a y (VStr c) counts) in Hadd by assumption.
  injection Hadd as _ <-.
  unfold __init__, _ensure_directory_structure, ensure_dir. rewrite Hd1. cbn [paths with_paths].
  rewrite Hd2.
  unfold _load_metadata, _load_categories, file_exists, read_json,
    _save_categories, _save_metadata, write_json.
  cbn. rewrite Hwm. cbn. rewrite Hwc. cbn. rewrite Hrm, Hrc. cbn.
  unfold reload_taxonomy, counted. cbn.
  rewrite reload_string_keyed by (apply string_keyed_set; exact Hkeys).
  reflexivity.
Qed.

Lemma restart_after_add_document_witness :
  fst (__init__ makedirs_fine (disk (snd (perform calc_call fresh_state))))
  = Ok (self (snd (perform calc_call fresh_state))).
Proof.
  apply (restart_after_add_document makedirs_fine
           (at_time calc_call) calc_draft (index_path calc_call) (source_path calc_call)
           fresh_state calc_hash _ "Matemáticas" []);
    first [ split; constructor | vm_compute; reflexivity ].
Defined.

Lemma perform_records `{U : Unicode} call st (c : string) :
  category_counts (taxonomy_of (self st)) <> None ->
  Z.of_nat (List.length (get_documents_by_category (self (snd (perform call st))) (VStr c)))
  <= Z.of_nat (List.length (get_documents_by_category (self st) (VStr c)))
     + (if is_ok (fst (perform call st)) && field_is (draft call) "category" (VStr c)
        then 1 else 0).
Proof.
  intros Hcounts. unfold perform, get_documents_by_category.
  pose proof (set_filter_length (fun doc => field_is doc "category" (VStr c))
                (metadata (self st))) as Hset.
  destruct (add_document_cases (at_time call) (draft call) (index_path call)
              (source_path call) st)
    as [(key & _ & _ & ->)
       | [(t & a & y & e & Ht & Ha & Hy & He & ->)
         | (t & a & y & cat & counts & Ht & Ha & Hy & Hc & Hh & Hcs)]].
  - simpl. lia.
  - cbn [fst snd self metadata is_ok andb].
    match goal with
    | |- context [Dict.set _ ?h ?rec] => specialize (Hset h rec)
    end.
    cbv beta in Hset. rewrite stored_record_category in Hset.
    assert (Hno : field_is (draft call) "category" (VStr c) = false).
    { unfold field_is.
      destruct He as [[-> _] | [[_ [Hnone _]] | [(c0 & -> & Hh) _]]].
      - reflexivity.
      - contradiction.
      - destruct c0; try discriminate. reflexivity. }
    rewrite Hno in Hset. lia.
  - rewrite (add_document_ok _ _ _ _ _ t a y cat counts) by assumption.
    cbn [fst snd self metadata is_ok andb].
    match goal with
    | |- context [Dict.set _ ?h ?rec] => specialize (Hset h rec)
    end.
    cbv beta in Hset. rewrite stored_record_category in Hset.
    destruct (field_is (draft call) "category" (VStr c)); lia.
Qed.

Lemma perform_keeps_counts_table `{U : Unicode} call st :
  category_counts (taxonomy_of (self st)) <> None ->
  category_counts (taxonomy_of (self (snd (perform call st)))) <> None.
Proof.
  intros Hcounts. unfold perform.
  destruct (add_document (at_time call) (draft call) (index_path call)
              (source_path call) st) as [[h | e] st'] eqn:Hadd; simpl.
  - destruct (add_document_inv _ _ _ _ _ _ _ Hadd)
      as (t & a & y & cat & counts & Ht & Ha & Hy & Hc & Hh & Hcs).
    rewrite (add_document_ok _ _ _ _ _ t a y cat counts) in Hadd by assumption.
    injection Hadd as _ <-. simpl. discriminate.
  - rewrite (add_document_raise_counts _ _ _ _ _ _ _ Hadd). exact Hcounts.
Qed.

(** X6.  The counts never fall behind the registry.  If, for every category
    that is a string, the count is at least the number of records filed under
    it (and the counts table is there), this is still so after any sequence
    of [add_document] calls, whether they return or raise. *)
Theorem counts_cover_records_kept `{U : Unicode} calls st :
  counts_cover_records st -> counts_cover_records (snd (run_calls calls st)).
Proof.
  revert st. induction calls as [ | call calls IH ]; intros st Hst; [ exact Hst | ].
  simpl. destruct (perform call st) as [r st1] eqn:Hone.
  specialize (IH st1). destruct (run_calls calls st1) as [rs st2]. simpl in *.
  apply IH. destruct Hst as [Hcounts Hcover]. split.
  - pose proof (perform_keeps_counts_table call st Hcounts) as H.
    rewrite Hone in H. exact H.
  - intros c.
    pose proof (perform_records call st c Hcounts) as Hrec.
    pose proof (perform_count call st (VStr c)) as Hcnt.
    rewrite Hone in Hrec, Hcnt. simpl in Hrec, Hcnt.
    specialize (Hcover c). lia.
Qed.

Lemma counts_cover_records_kept_witness :
  counts_cover_records
    (snd (run_calls [calc_call; algebra_call; calc_call] fresh_state)).
Proof.
  apply (counts_cover_records_kept [calc_call; algebra_call; calc_call] fresh_state).
  split; [ discriminate | ]. intros c. vm_compute. discriminate.
Defined.

(* ===================================================================== *)
(** * Further properties of [search_documents]                             *)
(* ===================================================================== *)

Lemma filter_filter {A} (f g : A -> bool) (l : list A) :
  filter f (filter g l) = filter (fun x => g x && f x) l.
Proof.
  induction l as [ | x l IH ]; simpl; [ reflexivity | ].
  destruct (g x); simpl; [ destruct (f x) | ]; rewrite IH; reflexivity.
Qed.

Lemma filter_all {A} (f : A -> bool) (l : list A) :
  (forall x, f x = true) -> filter f l = l.
Proof.
  intros Hf. induction l as [ | x l IH ]; simpl; [ reflexivity | ].
  rewrite Hf, IH. reflexivity.
Qed.

Lemma subsequence_refl {A} (l : list A) : subsequence l l.
Proof. induction l; constructor; assumption. Qed.

Lemma subsequence_trans {A} (l1 l2 l3 : list A) :
  subsequence l1 l2 -> subsequence l2 l3 -> subsequence l1 l3.
Proof.
  intros H12 H23. revert l1 H12.
  induction H23 as [ | x l2 l3 H23 IH | x l2 l3 H23 IH ]; intros l1 H12.
  - exact H12.
  - constructor. apply IH. exact H12.
  - inversion H12; subst; constructor; apply IH; assumption.
Qed.

Lemma filter_subsequence {A} (f : A -> bool) (l : list A) : subsequence (filter f l) l.
Proof.
  induction l as [ | x l IH ]; simpl; [ constructor | ].
  destruct (f x); constructor; exact IH.
Qed.

Lemma filterM_subsequence {A} (p : A -> result bool) (l r : list A) :
  filterM p l = Ok r -> subsequence r l.
Proof.
  revert r. induction l as [ | x l IH ]; simpl; intros r Hr.
  - injection Hr as <-. constructor.
  - apply bind_ok in Hr. destruct Hr as [b [_ Hr]].
    apply bind_ok in Hr. destruct Hr as [r' [Hr' Hr]].
    injection Hr as <-. destruct b; constructor; apply IH; exact Hr'.
Qed.

Lemma apply_filters_subsequence `{U : Unicode} items results found :
  apply_filters results items = Ok found -> subsequence found results.
Proof.
  revert results. induction items as [ | [key value] items IH ]; intros results; simpl.
  - intros [= <-]. apply subsequence_refl.
  - intros Hf. apply bind_ok in Hf. destruct Hf as [r [Hr Hf]].
    apply subsequence_trans with r; [ exact (IH _ Hf) | ].
    destruct (restricts value); [ | injection Hr as <-; apply subsequence_refl ].
    destruct (String.eqb key "year_range").
    + exact (filterM_subsequence _ _ _ Hr).
    + injection Hr as <-. apply filter_subsequence.
Qed.

Lemma apply_filters_equalities `{U : Unicode} items results :
  (forall key value, In (key, value) items -> key <> "year_range") ->
  apply_filters results items = Ok (filter (passes items) results).
Proof.
  revert results. induction items as [ | [key value] items IH ]; intros results Hkeys.
  - simpl. rewrite filter_all by reflexivity. reflexivity.
  - cbn [apply_filters apply_filter].
    assert (Hkey : String.eqb key "year_range" = false).
    { apply String.eqb_neq. apply (Hkeys key value). left. reflexivity. }
    rewrite Hkey.
    assert (Hstep : (if restricts value
                     then Ok (filter (field_equals key value) results)
                     else Ok results)
                    = Ok (filter (fun doc => negb (restricts value)
                                             || field_equals key value doc) results)).
    { destruct (restricts value); simpl; [ reflexivity | ].
      rewrite filter_all by reflexivity. reflexivity. }
    rewrite Hstep. cbn [Py.bind].
    rewrite IH by (intros k v Hin; apply (Hkeys k v); right; exact Hin).
    rewrite filter_filter. reflexivity.
Qed.

Lemma passes_spelled items doc :
  passes items doc
  = forallb (fun kv =>
               negb (restricts (snd kv))
               || match snd kv, Dict.get doc (fst kv) with
                  | FStr s, Some (VStr s') => String.eqb s' s
                  | _, _ => false
                  end) items.
Proof.
  unfold passes. induction items as [ | [key value] items IH ]; [ reflexivity | ].
  cbn [forallb fst snd]. rewrite IH. f_equal.
  destruct value as [ | s | lo hi ]; [ reflexivity | | reflexivity ].
  f_equal. unfold field_equals, field_is.
  destruct (Dict.get doc key) as [ [ | n | s' | l ] | ]; reflexivity.
Qed.

(** X7.  Without a year range and without a query, [search_documents] never
    raises: it returns, in registry order, exactly the records that agree
    with every filter whose value is not empty, [None], "Todas" or "Todos";
    a record that lacks the key of such a filter is left out. *)
Theorem search_documents_by_equalities `{U : Unicode} m items :
  (forall key value, In (key, value) items -> key <> "year_range") ->
  search_documents m None (Some items)
  = Ok (filter (fun doc =>
                  forallb (fun kv =>
                             negb (restricts (snd kv))
                             || match snd kv, Dict.get doc (fst kv) with
                                | FStr s, Some (VStr s') => String.eqb s' s
                                | _, _ => false
                                end) items)
               (Dict.values (metadata m))).
Proof.
  intros Hkeys. unfold search_documents. cbv zeta.
  rewrite apply_filters_equalities by exact Hkeys. cbn [Py.bind].
  f_equal. apply filter_ext. intros doc. apply passes_spelled.
Qed.

Lemma search_documents_by_equalities_witness :
  search_documents library None
    (Some [("category", FStr "Matemáticas"); ("type", FStr "Todos");
           ("author", FStr "Grossman")])
  = Ok [algebra_record].
Proof.
  rewrite (search_documents_by_equalities library).
  - vm_compute. reflexivity.
  - intros key value Hin. simpl in Hin.
    repeat (destruct Hin as [[= <- <-] | Hin]; [ discriminate | ]). contradiction.
Defined.

(** X8.  A filter whose value is empty, [None], "Todas" or "Todos" has no
    effect, whatever its key, the other filters and the query: the search
    with it is the search without it. *)
Theorem search_documents_ignores_idle_filter `{U : Unicode} m query before key value after :
  restricts value = false ->
  search_documents m query (Some (before ++ (key, value) :: after))
  = search_documents m query (Some (before ++ after)).
Proof.
  intros Hidle. unfold search_documents. cbv zeta.
  rewrite !apply_filters_app.
  destruct (apply_filters (Dict.values (metadata m)) before) as [r | e];
    [ | reflexivity ].
  cbn [Py.bind apply_filters apply_filter]. rewrite Hidle. reflexivity.
Qed.

Lemma search_documents_ignores_idle_filter_witness :
  search_documents library (Some "cálculo")
    (Some ([("category", FStr "Matemáticas")] ++ ("level", FStr "Todos")
           :: [("year_range", FRange 2000 2024)]))
  = search_documents library (Some "cálculo")
      (Some ([("category", FStr "Matemáticas")] ++ [("year_range", FRange 2000 2024)])).
Proof.
  apply (search_documents_ignores_idle_filter library (Some "cálculo")
           [("category", FStr "Matemáticas")] "level" (FStr "Todos")
           [("year_range", FRange 2000 2024)]).
  reflexivity.
Defined.

(** X9.  Whatever the query and the filters, a search that returns gives
    records of the registry in registry order, each at most as often as the
    registry has it: no record is made up, repeated or moved. *)
Theorem search_documents_subsequence `{U : Unicode} m query filters found :
  search_documents m query filters = Ok found ->
  subsequence found (Dict.values (metadata m)).
Proof.
  unfold search_documents. cbv zeta. intros Hs.
  apply bind_ok in Hs. destruct Hs as [survivors [Hf Hq]].
  assert (Hsub : subsequence survivors (Dict.values (metadata m))).
  { destruct filters as [items | ].
    - exact (apply_filters_subsequence _ _ _ Hf).
    - injection Hf as <-. apply subsequence_refl. }
  apply subsequence_trans with survivors; [ | exact Hsub ].
  destruct query as [ [ | c q ] | ].
  - injection Hq as <-. apply subsequence_refl.
  - exact (filterM_subsequence _ _ _ Hq).
  - injection Hq as <-. apply subsequence_refl.
Qed.

Lemma search_documents_subsequence_witness :
  subsequence [calc_draft; algebra_record] (Dict.values (metadata library)).
Proof.
  apply (search_documents_subsequence library None
           (Some (idle_filters ++ [year_filter]))).
  vm_compute. reflexivity.
Defined.

(** X10.  With no query, or an empty one, and with no filter that restricts,
    [search_documents] returns every record of the registry, once each, in
    registry order. *)
Theorem search_documents_everything `{U : Unicode} m query filters :
  query = None \/ query = Some "" ->
  (forall items key value,
      filters = Some items -> In (key, value) items -> restricts value = false) ->
  search_documents m query filters = Ok (Dict.values (metadata m)).
Proof.
  intros Hq Hidle. unfold search_documents. cbv zeta.
  assert (Hf : forall items,
             filters = Some items ->
             apply_filters (Dict.values (metadata m)) items
             = Ok (Dict.values (metadata m))).
  { intros items ->. apply apply_filters_idle. intros key value Hin.
    exact (Hidle items key value eq_refl Hin). }
  destruct filters as [items | ]; [ rewrite (Hf items eq_refl) | ]; simpl;
    destruct Hq as [-> | ->]; reflexivity.
Qed.

Lemma search_documents_everything_witness :
  search_documents library (Some "") (Some idle_filters)
  = Ok [calc_draft; algebra_record; undated_record].
Proof.
  rewrite (search_documents_everything library (Some "") (Some idle_filters)).
  - reflexivity.
  - right. reflexivity.
  - intros items key value [= <-] Hin. simpl in Hin.
    repeat (destruct Hin as [[= <- <-] | Hin]; [ reflexivity | ]). contradiction.
Defined.

(** X11.  Filtering the search by a category name alone gives what
    [get_documents_by_category] gives for that name, except for the names
    that the search reads as "no restriction" (the empty name, "Todas",
    "Todos"), for which it gives the whole registry. *)
Theorem search_documents_by_category `{U : Unicode} m c :
  search_documents m None (Some [("category", FStr c)])
  = Ok (if restricts (FStr c) then get_documents_by_category m (VStr c)
        else Dict.values (metadata m)).
Proof.
  unfold search_documents, get_documents_by_category. cbv zeta.
  cbn [apply_filters apply_filter]. destruct (restricts (FStr c)); reflexivity.
Qed.

(* ===================================================================== *)
(** * Further properties of [get_popular_categories]                       *)
(* ===================================================================== *)

Lemma sorted_app_higher {K} (l1 l2 : list (K * Z)) :
  StronglySorted higher (l1 ++ l2) ->
  forall x y, In x l1 -> In y l2 -> higher x y.
Proof.
  induction l1 as [ | a l1 IH ]; simpl; intros Hs x y Hx Hy; [ contradiction | ].
  inversion Hs as [ | ? ? Hrest Hall ]. subst.
  destruct Hx as [<- | Hx].
  - rewrite Forall_forall in Hall. apply Hall. apply in_or_app. right. exact Hy.
  - exact (IH Hrest x y Hx Hy).
Qed.

Lemma firstn_subset {A} (n : nat) (l : list A) (x : A) :
  In x (firstn n l) -> In x l.
Proof.
  revert n. induction l as [ | y l IH ]; intros [ | n ]; simpl; try tauto.
  intros [-> | Hin]; [ tauto | right; exact (IH n Hin) ].
Qed.

Lemma popular_is_prefix m :
  let counts :=
    match category_counts (taxonomy_of m) with Some c => c | None => [] end in
  NoDup (Dict.keys counts) ->
  get_popular_categories m = firstn 8 (sorted_desc counts).
Proof.
  intros counts Hnd. unfold get_popular_categories. fold counts.
  apply (of_items_distinct pyval_eqb_ok).
  unfold Dict.keys. rewrite <- firstn_map. apply firstn_NoDup.
  eapply Permutation_NoDup; [ | exact Hnd ].
  apply Permutation_map. apply sorted_desc_perm.
Qed.

(** X12.  What [get_popular_categories] returns are entries of the counts
    table with their counts, and no category that it leaves out has a higher
    count than one it returns; with eight categories or fewer none is left
    out. *)
Theorem get_popular_categories_are_the_highest m :
  let counts :=
    match category_counts (taxonomy_of m) with Some c => c | None => [] end in
  NoDup (Dict.keys counts) ->
  (forall kept, In kept (get_popular_categories m) -> In kept counts) /\
  (forall kept left_out,
      In kept (get_popular_categories m) ->
      In left_out counts -> ~ In left_out (get_popular_categories m) ->
      snd left_out <= snd kept) /\
  ((List.length counts <= 8)%nat -> Permutation counts (get_popular_categories m)).
Proof.
  intros counts Hnd. rewrite (popular_is_prefix m Hnd). fold counts.
  pose proof (sorted_desc_perm counts) as Hperm.
  pose proof (sorted_desc_sorted counts) as Hsorted.
  split; [ | split ].
  - intros kept Hin. apply (Permutation_in _ (Permutation_sym Hperm)).
    apply (firstn_subset _ _ _ Hin).
  - intros kept left_out Hkept Hleft Hout.
    rewrite <- (firstn_skipn 8 (sorted_desc counts)) in Hsorted.
    apply (sorted_app_higher _ _ Hsorted kept left_out Hkept).
    apply (Permutation_in _ Hperm) in Hleft.
    rewrite <- (firstn_skipn 8 (sorted_desc counts)) in Hleft.
    apply in_app_or in Hleft. tauto.
  - intros Hlen. rewrite firstn_all2; [ exact Hperm | ].
    rewrite <- (Permutation_length Hperm). exact Hlen.
Qed.

Lemma get_popular_categories_are_the_highest_witness :
  Permutation tied_counts (get_popular_categories tied_library).
Proof.
  refine (proj2 (proj2 (get_popular_categories_are_the_highest tied_library _)) _).
  - repeat constructor; simpl; intuition discriminate.
  - simpl. lia.
Defined.

(* ===================================================================== *)
(** * The agent registry: saving, deleting, resolving                      *)
(* ===================================================================== *)

Lemma load_saved_agents_written w (f : file (dict string saved_agent)) agents :
  content f = Some (Json agents) -> readable f = true ->
  load_saved_agents (with_saved_agents_file w f) = agents.
Proof.
  intros Hc Hr. unfold load_saved_agents, file_exists, read_json. simpl.
  rewrite Hc, Hr. reflexivity.
Qed.

Lemma load_saved_agents_paths w ps :
  load_saved_agents (with_paths w ps) = load_saved_agents w.
Proof. reflexivity. Qed.

(** What [save_agent] does when the directory and the file are fine. *)
Lemma save_agent_ok makedirs stamp created cfg w :
  makedirs "data" = true ->
  writable (saved_agents_file w) = true ->
  exists w',
    save_agent makedirs stamp created cfg w = (Some ("agent_" +++ stamp), w') /\
    content (saved_agents_file w')
    = Some (Json (Dict.set (load_saved_agents w) ("agent_" +++ stamp)
                           (entry_of created cfg))) /\
    readable (saved_agents_file w') = readable (saved_agents_file w) /\
    writable (saved_agents_file w') = true /\
    metadata_file w' = metadata_file w /\
    categories_file w' = categories_file w.
Proof.
  intros Hd Hw. unfold save_agent, ensure_dir, write_json. rewrite Hd.
  cbn [saved_agents_file with_paths]. rewrite Hw.
  eexists. split; [ reflexivity | ]. simpl. auto.
Qed.

Lemma load_saved_agents_content w agents :
  content (saved_agents_file w) = Some (Json agents) ->
  readable (saved_agents_file w) = true ->
  load_saved_agents w = agents.
Proof.
  intros Hc Hr. unfold load_saved_agents, file_exists, read_json.
  rewrite Hc, Hr. reflexivity.
Qed.

(** X13.  Saving an agent when [data/] is there and [saved_agents.json] can
    be written and read: the id is "agent_" followed by the time stamp;
    loading the registry afterwards finds, under that id, the form without
    its live handles (documents as title and hash pairs, in order) and the
    creation time; every other agent is as it was; the two files of the
    document registry are not touched. *)
Theorem save_agent_then_load makedirs stamp created cfg w :
  makedirs "data" = true ->
  writable (saved_agents_file w) = true ->
  readable (saved_agents_file w) = true ->
  exists w',
    save_agent makedirs stamp created cfg w = (Some ("agent_" +++ stamp), w') /\
    Dict.get (load_saved_agents w') ("agent_" +++ stamp) = Some (entry_of created cfg) /\
    map ref_hash (docs (entry_of created cfg))
    = map selected_hash (form_vectorstores cfg) /\
    (forall other, other <> "agent_" +++ stamp ->
        Dict.get (load_saved_agents w') other = Dict.get (load_saved_agents w) other) /\
    metadata_file w' = metadata_file w /\
    categories_file w' = categories_file w.
Proof.
  intros Hd Hw Hr.
  destruct (save_agent_ok makedirs stamp created cfg w Hd Hw)
    as (w' & Hsave & Hc & Hr' & _ & Hm & Hcat).
  exists w'. split; [ exact Hsave | ].
  rewrite (load_saved_agents_content w' _ Hc) by congruence.
  split; [ apply (get_set_same string_eqb_ok) | ].
  split; [ simpl; rewrite map_map; reflexivity | ].
  split; [ | auto ].
  intros other Hne. apply (get_set_other string_eqb_ok). congruence.
Qed.

Lemma save_agent_then_load_witness :
  exists w',
    save_agent makedirs_fine "20240503_101500" "2024-05-03T10:15:00.000000"
               mentor_form world_with_tutor
    = (Some "agent_20240503_101500", w') /\
    Dict.get (load_saved_agents w') "agent_20240502_093000" = Some tutor.
Proof.
  destruct (save_agent_then_load makedirs_fine "20240503_101500"
              "2024-05-03T10:15:00.000000" mentor_form world_with_tutor
              eq_refl eq_refl eq_refl)
    as (w' & Hsave & _ & _ & Hother & _).
  exists w'. split; [ exact Hsave | ].
  rewrite Hother by discriminate. reflexivity.
Defined.

(** X14.  The id of a saved agent is made from the second it is saved in and
    from nothing else: an agent saved in the same second as an earlier one
    gets the same id and takes its place, and the registry has as many agents
    as before. *)
Theorem save_agent_same_second makedirs stamp created1 cfg1 created2 cfg2 w :
  makedirs "data" = true ->
  writable (saved_agents_file w) = true ->
  readable (saved_agents_file w) = true ->
  let first := save_agent makedirs stamp created1 cfg1 w in
  let second := save_agent makedirs stamp created2 cfg2 (snd first) in
  fst second = fst first /\
  fst first = Some ("agent_" +++ stamp) /\
  Dict.get (load_saved_agents (snd second)) ("agent_" +++ stamp)
  = Some (entry_of created2 cfg2) /\
  List.length (load_saved_agents (snd second))
  = List.length (load_saved_agents (snd first)).
Proof.
  intros Hd Hw Hr first second.
  destruct (save_agent_ok makedirs stamp created1 cfg1 w Hd Hw)
    as (w1 & Hsave1 & Hc1 & Hr1 & Hw1 & _).
  assert (Hfirst : first = (Some ("agent_" +++ stamp), w1)) by exact Hsave1.
  destruct (save_agent_ok makedirs stamp created2 cfg2 w1 Hd Hw1)
    as (w2 & Hsave2 & Hc2 & Hr2 & _).
  assert (Hsecond : second = (Some ("agent_" +++ stamp), w2)).
  { unfold second. rewrite Hfirst. exact Hsave2. }
  rewrite Hsecond, Hfirst. cbn [fst snd].
  split; [ reflexivity | ]. split; [ reflexivity | ].
  rewrite (load_saved_agents_content w2 _ Hc2) by congruence.
  split; [ apply (get_set_same string_eqb_ok) | ].
  apply set_present_same_length.
  rewrite (load_saved_agents_content w1 _ Hc1) by congruence.
  rewrite (get_set_same string_eqb_ok). discriminate.
Qed.

Lemma save_agent_same_second_witness :
  let first := save_agent makedirs_fine "20240503_101500" "2024-05-03T10:15:00.100000"
                 tutor_form fresh_world in
  let second := save_agent makedirs_fine "20240503_101500" "2024-05-03T10:15:00.900000"
                  mentor_form (snd first) in
  option_map name (Dict.get (load_saved_agents (snd second)) "agent_20240503_101500")
  = Some "Mentor" /\
  List.length (load_saved_agents (snd second)) = 1%nat.
Proof.
  intros first second.
  destruct (save_agent_same_second makedirs_fine "20240503_101500"
              "2024-05-03T10:15:00.100000" tutor_form
              "2024-05-03T10:15:00.900000" mentor_form fresh_world
              eq_refl eq_refl eq_refl) as (_ & _ & Hget & Hlen).
  split; [ exact (f_equal (option_map name) Hget) | ].
  etransitivity; [ exact Hlen | reflexivity ].
Defined.

(** X15.  When [data/] cannot be made or [saved_agents.json] cannot be
    written, [save_agent] returns [None] instead of an id, the file is as it
    was and the registry still loads to what it loaded before. *)
Theorem save_agent_failure makedirs stamp created cfg w :
  makedirs "data" = false \/ writable (saved_agents_file w) = false ->
  fst (save_agent makedirs stamp created cfg w) = None /\
  saved_agents_file (snd (save_agent makedirs stamp created cfg w))
  = saved_agents_file w /\
  load_saved_agents (snd (save_agent makedirs stamp created cfg w))
  = load_saved_agents w.
Proof.
  intros Hfail. unfold save_agent, ensure_dir, write_json.
  destruct (makedirs "data"); [ | auto ].
  destruct Hfail as [Hd | Hw]; [ discriminate | ].
  cbn [saved_agents_file with_paths]. rewrite Hw. auto.
Qed.

Lemma save_agent_failure_witness :
  let w := with_saved_agents_file world_with_tutor
             (locked_file [("agent_20240502_093000", tutor)]) in
  fst (save_agent makedirs_fine "20240503_101500" "2024-05-03T10:15:00.000000"
         mentor_form w) = None.
Proof.
  intros w.
  apply (save_agent_failure makedirs_fine "20240503_101500"
           "2024-05-03T10:15:00.000000" mentor_form w).
  right. reflexivity.
Defined.

(** X16.  Deleting an agent.  An id that the registry does not have (also
    when the file is absent or corrupt) gives [False] and changes nothing.
    An id that it has is removed when the file can be written: afterwards
    the agent cannot be loaded, every other agent is as it was, and the
    document registry's files are not touched.  When the file cannot be
    written the answer is [False] and the agent stays. *)
Theorem delete_agent_outcomes agent_id w :
  (Dict.get (load_saved_agents w) agent_id = None ->
   delete_agent agent_id w = (false, w)) /\
  (Dict.get (load_saved_agents w) agent_id <> None ->
   writable (saved_agents_file w) = false ->
   delete_agent agent_id w = (false, w)) /\
  (Dict.get (load_saved_agents w) agent_id <> None ->
   writable (saved_agents_file w) = true ->
   readable (saved_agents_file w) = true ->
   fst (delete_agent agent_id w) = true /\
   (forall doc_manager,
       load_agent_config agent_id doc_manager (snd (delete_agent agent_id w)) = None) /\
   (forall other, other <> agent_id ->
       Dict.get (load_saved_agents (snd (delete_agent agent_id w))) other
       = Dict.get (load_saved_agents w) other) /\
   metadata_file (snd (delete_agent agent_id w)) = metadata_file w /\
   categories_file (snd (delete_agent agent_id w)) = categories_file w).
Proof.
  unfold delete_agent. split; [ | split ].
  - intros ->. reflexivity.
  - intros Hin Hw. destruct (Dict.get (load_saved_agents w) agent_id);
      [ | congruence ].
    unfold write_json. rewrite Hw. reflexivity.
  - intros Hin Hw Hr. destruct (Dict.get (load_saved_agents w) agent_id);
      [ | congruence ].
    unfold write_json. rewrite Hw. cbn [fst snd].
    split; [ reflexivity | ]. split; [ | split ].
    + intros doc_manager. unfold load_agent_config.
      match goal with
      | |- context [Dict.get ?l agent_id] =>
          assert (Hl : l = Dict.delete (load_saved_agents w) agent_id)
            by (apply load_saved_agents_written; [ reflexivity | exact Hr ]);
          rewrite Hl
      end.
      rewrite (get_delete_same). reflexivity.
    + intros other Hne.
      match goal with
      | |- Dict.get ?l other = _ =>
          assert (Hl : l = Dict.delete (load_saved_agents w) agent_id)
            by (apply load_saved_agents_written; [ reflexivity | exact Hr ]);
          rewrite Hl
      end.
      apply (get_delete_other string_eqb_ok). congruence.
    + auto.
Qed.

Lemma delete_agent_outcomes_witness :
  delete_agent "agent_19990101_000000" world_with_tutor = (false, world_with_tutor) /\
  fst (delete_agent "agent_20240502_093000" world_with_tutor) = true /\
  load_saved_agents (snd (delete_agent "agent_20240502_093000" world_with_tutor)) = [].
Proof.
  destruct (delete_agent_outcomes "agent_19990101_000000" world_with_tutor)
    as (Habsent & _).
  destruct (delete_agent_outcomes "agent_20240502_093000" world_with_tutor)
    as (_ & _ & Hpresent).
  split; [ apply Habsent; reflexivity | ].
  destruct Hpresent as (Htrue & _); [ discriminate | reflexivity | reflexivity | ].
  split; [ exact Htrue | reflexivity ].
Defined.

(** X17.  Saving an agent under an id that is new and deleting that id again
    gives back the registry as it loaded before, on a disk where [data/] is
    there and [saved_agents.json] can be written and read. *)
Theorem save_then_delete_agent makedirs stamp created cfg w :
  makedirs "data" = true ->
  writable (saved_agents_file w) = true ->
  readable (saved_agents_file w) = true ->
  Dict.get (load_saved_agents w) ("agent_" +++ stamp) = None ->
  let saved := save_agent makedirs stamp created cfg w in
  let deleted := delete_agent ("agent_" +++ stamp) (snd saved) in
  fst saved = Some ("agent_" +++ stamp) /\
  fst deleted = true /\
  load_saved_agents (snd deleted) = load_saved_agents w.
Proof.
  intros Hd Hw Hr Hnew saved deleted.
  destruct (save_agent_ok makedirs stamp created cfg w Hd Hw)
    as (w1 & Hsave & Hc1 & Hr1 & Hw1 & _).
  assert (Hsaved : saved = (Some ("agent_" +++ stamp), w1)) by exact Hsave.
  assert (Hload1 : load_saved_agents w1
                   = Dict.set (load_saved_agents w) ("agent_" +++ stamp)
                              (entry_of created cfg))
    by (apply load_saved_agents_content; [ exact Hc1 | congruence ]).
  unfold deleted. rewrite Hsaved. cbn [fst snd].
  split; [ reflexivity | ].
  unfold delete_agent. rewrite Hload1, (get_set_same string_eqb_ok).
  unfold write_json. rewrite Hw1. cbn [fst snd].
  split; [ reflexivity | ].
  rewrite load_saved_agents_written with
    (agents := Dict.delete (Dict.set (load_saved_agents w) ("agent_" +++ stamp)
                              (entry_of created cfg)) ("agent_" +++ stamp));
    [ | reflexivity | simpl; congruence ].
  apply (delete_set_absent string_eqb_ok). exact Hnew.
Qed.

Lemma save_then_delete_agent_witness :
  let saved := save_agent makedirs_fine "20240503_101500" "2024-05-03T10:15:00.000000"
                 mentor_form world_with_tutor in
  load_saved_agents (snd (delete_agent "agent_20240503_101500" (snd saved)))
  = load_saved_agents world_with_tutor.
Proof.
  intros saved.
  exact (proj2 (proj2 (save_then_delete_agent makedirs_fine "20240503_101500"
                         "2024-05-03T10:15:00.000000" mentor_form world_with_tutor
                         eq_refl eq_refl eq_refl eq_refl))).
Defined.

Lemma resolve_refs_raise m w agent refs r e :
  In r refs -> resolve_ref m w agent r = Raise e ->
  exists e', resolve_refs m w agent refs = Raise e'.
Proof.
  induction refs as [ | r0 refs IH ]; intros Hin Hr; [ contradiction | ].
  simpl. destruct Hin as [-> | Hin].
  - rewrite Hr. simpl. eauto.
  - destruct (resolve_ref m w agent r0) as [entry | e0]; simpl; [ | eauto ].
    destruct (IH Hin Hr) as [e' ->]. simpl. eauto.
Qed.

Lemma existsb_present (s : string) (l : list string) :
  In s l -> existsb (String.eqb s) l = true.
Proof.
  intros Hin. apply existsb_exists. exists s. split; [ exact Hin | ].
  apply String.eqb_refl.
Qed.

(** X18.  Resolution is all or nothing once a document is there.  If one
    reference of the agent has its record in the registry and its index
    directory on disk, and the vector store fails to open it, then
    [load_agent_config] returns [None]: the documents that would have
    resolved are not returned either. *)
Theorem load_agent_config_one_failure agent_id m w agent r doc path e :
  Dict.get (load_saved_agents w) agent_id = Some agent ->
  In r (docs agent) ->
  get_document m (ref_hash r) = Some doc ->
  Dict.get doc "vectorstore_path" = Some (VStr path) ->
  In path (paths w) ->
  chroma w (VStr path) = Raise e ->
  load_agent_config agent_id m w = None.
Proof.
  intros Hagent Hin Hdoc Hpath Hthere Hopen.
  assert (Hr : resolve_ref m w agent r = Raise e).
  { unfold resolve_ref. rewrite Hdoc.
    destruct doc as [ | kv doc ]; [ discriminate | ].
    unfold usable, Dict.get_default, getitem. rewrite Hpath. simpl.
    rewrite existsb_present by exact Hthere. simpl. rewrite Hopen. reflexivity. }
  destruct (resolve_refs_raise m w agent (docs agent) r e Hin Hr) as [e' He'].
  unfold load_agent_config. rewrite Hagent, He'. reflexivity.
Qed.

Lemma load_agent_config_one_failure_witness :
  load_agent_config "agent_20240502_093000" library_after_calc world_with_broken_index
  = None.
Proof.
  apply (load_agent_config_one_failure "agent_20240502_093000" library_after_calc
           world_with_broken_index tutor
           {| ref_title := VStr "Calc I"; ref_hash := calc_hash |}
           (stored_record (at_time calc_call) calc_draft calc_hash
              (index_path calc_call) (source_path calc_call))
           "data/processed_docs/Calc_I/vectorstore" OSError).
  - reflexivity.
  - simpl. tauto.
  - vm_compute. reflexivity.
  - reflexivity.
  - simpl. tauto.
  - reflexivity.
Defined.

Lemma resolve_ref_entry m w agent r entry :
  resolve_ref m w agent r = Ok (Some entry) ->
  exists doc path,
    get_document m (ref_hash r) = Some doc /\
    Dict.get doc "vectorstore_path" = Some path /\
    path_exists w path = Ok true /\
    chroma w path = Ok (vectorstore_of entry) /\
    Dict.get doc "hash" = Some (hash entry) /\
    Dict.get doc "title" = Some (title entry) /\
    as_retriever w (vectorstore_of entry) (context_window agent)
    = Ok (retriever_of entry).
Proof.
  unfold resolve_ref. intros Hr.
  apply bind_ok in Hr. destruct Hr as [ok [Husable Hr]].
  destruct ok; [ | discriminate ].
  destruct (get_document m (ref_hash r)) as [doc | ]; [ | discriminate ].
  destruct doc as [ | kv doc ]; [ discriminate | ].
  unfold usable in Husable.
  apply bind_ok in Hr. destruct Hr as [path [Hpath Hr]].
  apply bind_ok in Hr. destruct Hr as [vs [Hvs Hr]].
  apply bind_ok in Hr. destruct Hr as [h [Hh Hr]].
  apply bind_ok in Hr. destruct Hr as [t [Ht Hr]].
  apply bind_ok in Hr. destruct Hr as [rt [Hrt Hr]].
  injection Hr as <-. simpl.
  unfold getitem in Hpath, Hh, Ht. unfold Dict.get_default in Husable.
  destruct (Dict.get (kv :: doc) "vectorstore_path") as [p | ] eqn:Ep;
    [ | discriminate ].
  destruct (Dict.get (kv :: doc) "hash") as [h' | ] eqn:Eh; [ | discriminate ].
  destruct (Dict.get (kv :: doc) "title") as [t' | ] eqn:Et; [ | discriminate ].
  injection Hpath as <-. injection Hh as <-. injection Ht as <-.
  exists (kv :: doc), p. auto 10.
Qed.

(** X19.  What [load_agent_config] returns is sound: the configuration is
    the saved one; every vector store in it comes from a reference of the
    agent whose record is in the registry and whose index path exists, was
    opened on that path, carries the id and the title of the record (not
    the title saved with the agent), and has a retriever for the agent's
    context window; and there are no more vector stores than references. *)
Theorem load_agent_config_sound agent_id m w config :
  load_agent_config agent_id m w = Some config ->
  Dict.get (load_saved_agents w) agent_id = Some (saved config) /\
  (List.length (vectorstores config) <= List.length (docs (saved config)))%nat /\
  (forall entry, In entry (vectorstores config) ->
     exists r doc path,
       In r (docs (saved config)) /\
       get_document m (ref_hash r) = Some doc /\
       Dict.get doc "vectorstore_path" = Some path /\
       path_exists w path = Ok true /\
       chroma w path = Ok (vectorstore_of entry) /\
       Dict.get doc "hash" = Some (hash entry) /\
       Dict.get doc "title" = Some (title entry) /\
       as_retriever w (vectorstore_of entry) (context_window (saved config))
       = Ok (retriever_of entry)).
Proof.
  unfold load_agent_config. intros Hload.
  destruct (Dict.get (load_saved_agents w) agent_id) as [agent | ]; [ | discriminate ].
  destruct (resolve_refs m w agent (docs agent)) as [vs | e] eqn:Hrefs;
    [ | discriminate ].
  injection Hload as <-. simpl. split; [ reflexivity | ].
  revert vs Hrefs. generalize (docs agent) as refs.
  induction refs as [ | r refs IH ]; simpl; intros vs Hrefs.
  - injection Hrefs as <-. split; [ simpl; lia | intros entry [] ].
  - apply bind_ok in Hrefs. destruct Hrefs as [first [Hfirst Hrefs]].
    apply bind_ok in Hrefs. destruct Hrefs as [rest [Hrest Hrefs]].
    injection Hrefs as <-. destruct (IH rest Hrest) as [Hlen Hall].
    split; [ destruct first; simpl; lia | ].
    intros entry Hin.
    assert (Hcases : Some entry = first \/ In entry rest).
    { destruct first as [entry0 | ]; [ | right; exact Hin ].
      destruct Hin as [<- | Hin]; [ left; reflexivity | right; exact Hin ]. }
    destruct Hcases as [<- | Hin'].
    + destruct (resolve_ref_entry m w agent r entry Hfirst) as (doc & path & Hprops).
      exists r, doc, path. split; [ left; reflexivity | exact Hprops ].
    + destruct (Hall entry Hin') as (r' & doc & path & Hr' & Hprops).
      exists r', doc, path. split; [ right; exact Hr' | exact Hprops ].
Qed.

Lemma load_agent_config_sound_witness :
  exists config,
    load_agent_config "agent_20240502_093000" library_after_calc world_with_index
    = Some config /\
    map title (vectorstores config) = [VStr "Calc I"] /\
    Dict.get (load_saved_agents world_with_index) "agent_20240502_093000"
    = Some (saved config).
Proof.
  destruct (load_agent_config "agent_20240502_093000" library_after_calc
              world_with_index) as [config | ] eqn:Hload;
    [ | vm_compute in Hload; discriminate ].
  exists config. split; [ reflexivity | ].
  split; [ | exact (proj1 (load_agent_config_sound _ _ _ _ Hload)) ].
  vm_compute in Hload. injection Hload as <-. reflexivity.
Defined.

(* ===================================================================== *)
(** * The upload page: loaders and file names                              *)
(* ===================================================================== *)

Ltac by_format ext :=
  repeat match goal with
         | |- context [String.eqb ?key ext] =>
             let E := fresh "E" in
             destruct (String.eqb key ext) eqn:E;
             [ apply String.eqb_eq in E; subst ext | ]
         end.

(** X20.  The formats that the upload page accepts and the loader table
    agree: [get_document_loader] returns a loader class for exactly the keys
    of [SUPPORTED_FORMATS] and raises [ValueError] for every other type.
    Plain text is given the HTML loader. *)
Theorem get_document_loader_covers_formats file_type :
  (Dict.get SUPPORTED_FORMATS file_type <> None <->
   exists loader, get_document_loader file_type = Ok loader) /\
  (Dict.get SUPPORTED_FORMATS file_type = None ->
   get_document_loader file_type = Raise ValueError) /\
  get_document_loader "txt" = Ok UnstructuredHTMLLoader.
Proof.
  unfold get_document_loader, SUPPORTED_FORMATS, loaders.
  cbn [Dict.get]. unfold eqb, string_Eqb.
  split; [ | split; [ | reflexivity ] ].
  - by_format file_type; cbn; split; intros; try congruence; eauto;
      match goal with H : exists _, _ |- _ => destruct H; discriminate end.
  - by_format file_type; cbn; intros; congruence.
Qed.

Lemma bytes_append (s t : string) : bytes (s +++ t) = bytes s ++ bytes t.
Proof. induction s as [ | c s IH ]; simpl; [ reflexivity | rewrite IH; reflexivity ]. Qed.

Lemma append_empty_r (s : string) : s +++ "" = s.
Proof. induction s as [ | c s IH ]; simpl; [ reflexivity | rewrite IH; reflexivity ]. Qed.

Lemma concat_cons (p : string) (pieces : list string) :
  String.concat "" (p :: pieces) = p +++ String.concat "" pieces.
Proof.
  destruct pieces as [ | q pieces ]; simpl; [ | reflexivity ].
  rewrite append_empty_r. reflexivity.
Qed.

Lemma bytes_concat (pieces : list string) :
  bytes (String.concat "" pieces) = flat_map bytes pieces.
Proof.
  induction pieces as [ | p pieces IH ]; [ reflexivity | ].
  rewrite concat_cons, bytes_append, IH. reflexivity.
Qed.

Lemma ascii_alnum_safe (a : ascii) : is_ascii_alnum a = true -> safe_byte (code a).
Proof.
  unfold is_ascii_alnum, is_digit, is_upper, safe_byte.
  rewrite !orb_true_iff, !andb_true_iff, !Z.leb_le. tauto.
Qed.

Lemma punctuation_safe (a : ascii) :
  contains (String a EmptyString) "._- " = true -> safe_byte (code a).
Proof.
  unfold safe_byte. cbn [contains startswith]. rewrite !andb_true_r, !orb_false_r.
  rewrite !orb_true_iff. intros [H | [H | [H | H]]];
    apply Ascii.eqb_eq in H; subst a; cbn; tauto.
Qed.

(** What [clean_filename] puts in place of one character. *)
Lemma cleaned_character_safe isalnum (c : string) (b : Z) :
  match c with
  | String _ EmptyString => True
  | _ => forallb (fun b => 128 <=? b) (bytes c) = true
  end ->
  In b (bytes (if char_isalnum isalnum c || contains c "._- " then c else "_")) ->
  b < 128 -> safe_byte b.
Proof.
  intros Hwf Hin Hb.
  assert (Hunder : In b (bytes "_") -> safe_byte b).
  { simpl. intros [<- | []]. unfold safe_byte. cbn. tauto. }
  destruct (char_isalnum isalnum c || contains c "._- ") eqn:Hkeep;
    [ | exact (Hunder Hin) ].
  destruct c as [ | a [ | a' rest ] ].
  - contradiction.
  - simpl in Hin. destruct Hin as [<- | []].
    apply orb_true_iff in Hkeep. destruct Hkeep as [Halnum | Hpunct].
    + unfold char_isalnum in Halnum.
      destruct (code a <? 128) eqn:E; [ apply ascii_alnum_safe; exact Halnum | ].
      apply Z.ltb_ge in E. lia.
    + apply punctuation_safe. exact Hpunct.
  - rewrite forallb_forall in Hwf. specialize (Hwf b Hin).
    apply Z.leb_le in Hwf. lia.
Qed.

Lemma contains_byte c s :
  contains (String c EmptyString) s = true -> In (code c) (bytes s).
Proof.
  induction s as [ | b s IH ]; simpl; [ discriminate | ].
  intros H. apply orb_true_iff in H. destruct H as [H | H].
  - apply andb_true_iff in H. destruct H as [H _].
    apply Ascii.eqb_eq in H. left. congruence.
  - right. exact (IH H).
Qed.

(** X21.  A cleaned file name holds no path separator: for text as Python
    has it and whatever [isalnum] says of the characters outside ASCII,
    every ASCII byte of [clean_filename]'s result is a letter, a digit, a
    dot, an underscore, a hyphen or a space, so the result has no slash and
    no backslash.  It is not thereby a safe path component: the name [".."]
    is left as it is. *)
Theorem clean_filename_safe isalnum filename :
  well_formed_text filename = true ->
  (forall b, In b (bytes (clean_filename isalnum filename)) -> b < 128 -> safe_byte b) /\
  contains "/" (clean_filename isalnum filename) = false /\
  contains "\" (clean_filename isalnum filename) = false /\
  clean_filename isalnum ".." = "..".
Proof.
  intros Hwf.
  assert (Hsafe : forall b, In b (bytes (clean_filename isalnum filename)) ->
                            b < 128 -> safe_byte b);
    [ | split; [ exact Hsafe | split; [ | split; [ | reflexivity ] ] ];
        match goal with
        | |- contains ?q ?s = false =>
            destruct (contains q s) eqn:E; [ | reflexivity ];
            apply contains_byte in E; apply Hsafe in E;
            [ vm_compute in E; intuition (try discriminate; try lia)
            | vm_compute; reflexivity ]
        end ].
  intros b Hin Hb. unfold clean_filename in Hin. rewrite bytes_concat in Hin.
  apply in_flat_map in Hin. destruct Hin as [piece [Hpiece Hin]].
  apply in_map_iff in Hpiece. destruct Hpiece as [c [<- Hc]].
  unfold well_formed_text in Hwf. rewrite forallb_forall in Hwf.
  specialize (Hwf c Hc).
  apply (cleaned_character_safe isalnum c b); [ | exact Hin | exact Hb ].
  destruct c as [ | a [ | a' rest ] ]; [ exact Hwf | exact I | exact Hwf ].
Qed.

Lemma clean_filename_safe_witness :
  clean_filename isalnum_latin "Cálculo I: límites/derivadas (2ª ed.)"
  = "Cálculo I_ límites_derivadas _2ª ed._" /\
  forall b,
    In b (bytes (clean_filename isalnum_latin "Cálculo I: límites/derivadas (2ª ed.)")) ->
    b < 128 -> safe_byte b.
Proof.
  split; [ vm_compute; reflexivity | ].
  apply (clean_filename_safe isalnum_latin "Cálculo I: límites/derivadas (2ª ed.)").
  vm_compute. reflexivity.
Defined.

(* ===================================================================== *)
(** * The chat page: the recent history                                    *)
(* ===================================================================== *)

Lemma slice_last_window {A} (older recent : list A) (n : Z) :
  1 <= n -> Z.of_nat (List.length recent) = n ->
  slice_last (older ++ recent) n = recent.
Proof.
  intros Hn Hlen. unfold slice_last.
  assert (E : (- n <? 0) = true) by (apply Z.ltb_lt; lia). rewrite E.
  rewrite length_app, Nat2Z.inj_add.
  replace (Z.to_nat (Z.max 0 (Z.of_nat (List.length older)
                              + Z.of_nat (List.length recent) - n)))
    with (List.length older) by lia.
  rewrite skipn_app, skipn_all, Nat.sub_diag. reflexivity.
Qed.

Lemma slice_last_zero {A} (l : list A) : slice_last l 0 = l.
Proof. unfold slice_last. simpl. rewrite Z.min_l by lia. reflexivity. Qed.

Lemma slice_last_short {A} (l : list A) (n : Z) :
  Z.of_nat (List.length l) <= n -> slice_last l n = l.
Proof.
  intros Hlen. unfold slice_last.
  destruct (- n <? 0) eqn:E.
  - replace (Z.to_nat (Z.max 0 (Z.of_nat (List.length l) - n))) with O by lia.
    reflexivity.
  - apply Z.ltb_ge in E. replace (Z.to_nat (Z.min (- n) (Z.of_nat (List.length l))))
      with O by lia.
    reflexivity.
Qed.

(** X22.  [get_recent_history] with a positive [max_messages] formats the
    last [max_messages] messages and nothing of what came before them, and
    formats all of them when there are not that many.  With [max_messages]
    zero it does not give the empty text: [messages[-0:]] is the whole list,
    so the whole history is formatted. *)
Theorem get_recent_history_window `{U : Unicode} older recent n :
  1 <= n -> Z.of_nat (List.length recent) = n ->
  get_recent_history (older ++ recent) n = get_recent_history recent n /\
  get_recent_history recent (n + Z.of_nat (List.length older))
  = get_recent_history recent n /\
  get_recent_history (older ++ recent) 0
  = get_recent_history (older ++ recent)
      (Z.of_nat (List.length (older ++ recent))).
Proof.
  intros Hn Hlen.
  assert (Hrecent : forall (l : list document) k, slice_last l k = l ->
             get_recent_history l k
             = (let? lines := format_messages l in Ok (String.concat newline lines))).
  { intros l k Hslice. unfold get_recent_history. rewrite Hslice.
    destruct l; reflexivity. }
  split; [ | split ].
  - rewrite (Hrecent recent n) by (apply slice_last_short; lia).
    unfold get_recent_history. rewrite slice_last_window by assumption.
    destruct (older ++ recent) eqn:E; [ | reflexivity ].
    apply app_eq_nil in E. destruct E as [_ ->]. reflexivity.
  - rewrite (Hrecent recent n) by (apply slice_last_short; lia).
    apply Hrecent. apply slice_last_short. lia.
  - rewrite (Hrecent (older ++ recent) 0) by apply slice_last_zero.
    symmetry. apply Hrecent. apply slice_last_short. lia.
Qed.

Lemma get_recent_history_window_witness :
  get_recent_history transcript 2
  = Ok ("Assistant: El valor al que se acerca f(x)." +++ newline +++ "Assistant: fin") /\
  get_recent_history transcript 0 = Raise (KeyError "role").
Proof.
  destruct (get_recent_history_window (firstn 2 transcript) (skipn 2 transcript) 2)
    as (Hwindow & _ & Hzero); [ lia | reflexivity | ].
  split.
  - change transcript with (firstn 2 transcript ++ skipn 2 transcript).
    rewrite Hwindow. reflexivity.
  - change transcript with (firstn 2 transcript ++ skipn 2 transcript).
    rewrite Hzero. reflexivity.
Defined.

Lemma format_messages_raise `{U : Unicode} msgs msg :
  In msg msgs ->
  Dict.get msg "role" = None \/ Dict.get msg "content" = None ->
  exists key, format_messages msgs = Raise (KeyError key).
Proof.
  induction msgs as [ | m msgs IH ]; intros Hin Hbad; [ contradiction | ].
  simpl. destruct Hin as [-> | Hin].
  - unfold format_message, getitem.
    destruct (Dict.get msg "role") as [role | ]; simpl; [ | eauto ].
    destruct Hbad as [Hbad | Hbad]; [ discriminate | ]. rewrite Hbad. simpl. eauto.
  - destruct (format_message m) as [line | e] eqn:Hm; simpl.
    + destruct (IH Hin Hbad) as [key ->]. simpl. eauto.
    + unfold format_message, getitem in Hm.
      destruct (Dict.get m "role"); simpl in Hm; [ | injection Hm as <-; eauto ].
      destruct (Dict.get m "content"); simpl in Hm; [ discriminate | ].
      injection Hm as <-. eauto.
Qed.

(** X23.  A message among the last [max_messages] that has no role or no
    content makes [get_recent_history] raise a [KeyError]; a role other than
    "user", whatever it is, is shown as "Assistant". *)
Theorem get_recent_history_malformed `{U : Unicode} older recent n msg :
  1 <= n -> Z.of_nat (List.length recent) = n ->
  In msg recent ->
  Dict.get msg "role" = None \/ Dict.get msg "content" = None ->
  (exists key, get_recent_history (older ++ recent) n = Raise (KeyError key)) /\
  (forall role content,
      role <> VStr "user" ->
      get_recent_history [[("role", role); ("content", content)]] n
      = Ok ("Assistant: " +++ py_str content)).
Proof.
  intros Hn Hlen Hin Hbad. split.
  - unfold get_recent_history. rewrite slice_last_window by assumption.
    destruct (format_messages_raise recent msg Hin Hbad) as [key Hkey].
    exists key.
    destruct (older ++ recent) eqn:E; [ | rewrite Hkey; reflexivity ].
    apply app_eq_nil in E. destruct E as [_ ->]. contradiction.
  - intros role content Hrole. unfold get_recent_history.
    rewrite slice_last_short by (simpl; lia).
    cbn. destruct (pyval_eqb role (VStr "user")) eqn:E.
    + apply pyval_eqb_eq in E. contradiction.
    + cbn. reflexivity.
Qed.

Lemma get_recent_history_malformed_witness :
  exists key, get_recent_history transcript 4 = Raise (KeyError key).
Proof.
  refine (proj1 (get_recent_history_malformed [] transcript 4
                   [("content", VStr "(sin rol)")] _ _ _ _)).
  - lia.
  - reflexivity.
  - simpl. tauto.
  - left. reflexivity.
Defined.
